(** * Songvisualizer: label rules, repository queries and chart series

    A shallow embedding of [app.py]: the two label functions
    ([dance_energy_category], [map_mood]), the SQLite accessor
    ([db_create_dataframe]), the mood table of [submit_mood] and the data
    series behind the two figures.  Python values are dynamically typed, so
    the embedding carries a small universe of run-time values and a result
    type whose second constructor is a raised exception. *)

From Stdlib Require Import ZArith String List Lia.
From Stdlib Require Import Sorting.Sorted Sorting.Permutation.
From Stdlib Require Import Floats.SpecFloat.
From Corelib Require Import Floats.PrimFloat Floats.FloatOps.
From stdpp Require Import gmap strings.

Local Open Scope string_scope.
Local Open Scope Z_scope.

(** ** Run-time values and exceptions *)

(** A Python [float] is an IEEE binary64 number: [spec_float] is the
    Standard Library's specification of those, NaN and infinities included. *)
Inductive value : Type :=
  | VInt (z : Z)
  | VFloat (f : spec_float)
  | VStr (s : string).

Inductive exn : Type :=
  | KeyError (key : string)
  | TypeError
  | ValueError
  | OperationalError.

Inductive result (A : Type) : Type :=
  | Ok (a : A)
  | Raise (e : exn).
Arguments Ok {A} a.
Arguments Raise {A} e.

#[global] Instance result_ret : MRet result := fun _ a => Ok a.
#[global] Instance result_bind : MBind result := fun _ _ k m =>
  match m with
  | Ok a => k a
  | Raise e => Raise e
  end.
#[global] Instance result_fmap : FMap result := fun _ _ g m =>
  match m with
  | Ok a => Ok (g a)
  | Raise e => Raise e
  end.

(** Monadic map over a list: the first exception aborts the traversal, as an
    exception escaping the callback of [Series.apply] does. *)
Fixpoint traverse {A B : Type} (k : A -> result B) (l : list A) : result (list B) :=
  match l with
  | [] => Ok []
  | a :: l' => b ← k a; bs ← traverse k l'; Ok (b :: bs)
  end.

(** ** Float literals of the source

    [0.4.hex() = '0x1.999999999999ap-2'], [0.7.hex() = '0x1.6666666666666p-1']
    and [0.5.hex() = '0x1.0000000000000p-1']: mantissa and exponent of the
    binary64 number each decimal literal denotes. *)
Definition f0_4 : spec_float := S754_finite false 7205759403792794 (-54).
Definition f0_7 : spec_float := S754_finite false 6305039478318694 (-53).
Definition f0_5 : spec_float := S754_finite false 4503599627370496 (-53).

(** ** Comparison operators *)

(** A float against an integer: Python compares the two mathematical values
    exactly, with no rounding of the integer. *)
Definition SFcompare_Z (f : spec_float) (z : Z) : option comparison :=
  match f with
  | S754_nan => None
  | S754_infinity s => Some (if s then Lt else Gt)
  | S754_zero _ => Some (0 ?= z)
  | S754_finite s m e =>
      let n := if s then Z.neg m else Z.pos m in
      Some (if 0 <=? e then n * 2 ^ e ?= z else n ?= z * 2 ^ (- e))
  end.

(** The three-way outcome behind [<], [>] and [>=]: [None] is the unordered
    outcome of a NaN operand; a string against a number raises [TypeError]. *)
Definition py_compare (a b : value) : result (option comparison) :=
  match a, b with
  | VInt x, VInt y => Ok (Some (x ?= y))
  | VFloat x, VFloat y => Ok (SFcompare x y)
  | VFloat x, VInt y => Ok (SFcompare_Z x y)
  | VInt x, VFloat y => Ok (option_map CompOpp (SFcompare_Z y x))
  | VStr x, VStr y => Ok (Some (String.compare x y))
  | _, _ => Raise TypeError
  end.

Definition py_lt (a b : value) : result bool :=
  c ← py_compare a b;
  Ok (match c with Some Lt => true | _ => false end).

Definition py_gt (a b : value) : result bool :=
  c ← py_compare a b;
  Ok (match c with Some Gt => true | _ => false end).

Definition py_ge (a b : value) : result bool :=
  c ← py_compare a b;
  Ok (match c with Some Gt | Some Eq => true | _ => false end).

(** [a and b]: the right operand is evaluated only when the left one is true,
    so an exception of the right operand is not raised otherwise. *)
Definition py_and (a b : result bool) : result bool :=
  x ← a; if (x : bool) then b else Ok false.

(** ** Rows *)

(** A row of a data frame ([row["valence"]]) and a record of
    [to_dict(orient="records")]: a finite map from column names to values. *)
Abbreviation Row := (gmap string value).
Abbreviation DataFrame := (list (gmap string value)).

Definition getitem (row : Row) (key : string) : result value :=
  match row !! key with
  | Some v => Ok v
  | None => Raise (KeyError key)
  end.

(** ** The two label functions *)

Definition dance_energy_category (value : value) : result string :=
  c ← py_lt value (VFloat f0_4);
  if (c : bool) then Ok "Low"
  else
    c ← py_lt value (VFloat f0_7);
    if (c : bool) then Ok "Medium" else Ok "High".

Definition map_mood (row : Row) : result string :=
  c ← py_and (v ← getitem row "valence"; py_gt v (VFloat f0_7))
             (e ← getitem row "energy"; py_gt e (VFloat f0_7));
  if (c : bool) then Ok "Happy"
  else
    c ← py_and (t ← getitem row "tempo"; py_lt t (VInt 90))
               (e ← getitem row "energy"; py_lt e (VFloat f0_5));
    if (c : bool) then Ok "Relaxing"
    else
      c ← py_and (t ← getitem row "tempo"; py_gt t (VInt 120))
                 (e ← getitem row "energy"; py_gt e (VFloat f0_7));
      if (c : bool) then Ok "Workout"
      else
        c ← py_and (d ← getitem row "danceability"; py_gt d (VFloat f0_7))
                   (e ← getitem row "energy"; py_gt e (VFloat f0_7));
        if (c : bool) then Ok "Party" else Ok "Other".

(** ** The database *)

(** A record of table [songs], with the columns the application reads.  The
    table is written by [db_convert.py] from a CSV after [dropna()], so the
    text columns hold strings, [popularity] an integer and the audio features
    floats. *)
Record Song : Type := {
  track_name : string;
  artists : string;
  track_genre : string;
  popularity : Z;
  danceability : spec_float;
  energy : spec_float;
  valence : spec_float;
  tempo : spec_float;
  acousticness : spec_float;
  liveness : spec_float
}.

(** The file [spotifyMusic.db]: [sqlite3.connect] creates an empty database
    when the file is missing, in which table [songs] does not exist. *)
Record Database : Type := { songs_table : option (list Song) }.

(** Code that talks to the database: the database is threaded through, and
    an exception leaves it as it was when raised. *)
Definition IO (A : Type) : Type := Database -> result A * Database.

#[global] Instance IO_ret : MRet IO := fun _ a db => (Ok a, db).
#[global] Instance IO_bind : MBind IO := fun _ _ k m db =>
  match m db with
  | (Ok a, db') => k a db'
  | (Raise e, db') => (Raise e, db')
  end.

Definition lift {A : Type} (r : result A) : IO A := fun db => (r, db).

(** The two statements [db_create_dataframe] can build. *)
Inductive statement : Type :=
  | SelectAll
  | SelectWhereGenre (genre : string).

(** [cursor.execute(stmt, params); cursor.fetchall()]: text is compared with
    SQLite's default BINARY collation, byte for byte. *)
Definition execute (stmt : statement) : IO (list Song) := fun db =>
  match songs_table db with
  | None => (Raise OperationalError, db)
  | Some rows =>
      match stmt with
      | SelectAll => (Ok rows, db)
      | SelectWhereGenre genre =>
          (Ok (List.filter (fun s => String.eqb (track_genre s) genre) rows), db)
      end
  end.

(** [pd.DataFrame(data, columns=column_names)], one row. *)
Definition row_of_song (s : Song) : Row :=
  <["track_name" := VStr (track_name s)]>
  (<["artists" := VStr (artists s)]>
  (<["track_genre" := VStr (track_genre s)]>
  (<["popularity" := VInt (popularity s)]>
  (<["danceability" := VFloat (danceability s)]>
  (<["energy" := VFloat (energy s)]>
  (<["valence" := VFloat (valence s)]>
  (<["tempo" := VFloat (tempo s)]>
  (<["acousticness" := VFloat (acousticness s)]>
  (<["liveness" := VFloat (liveness s)]> ∅))))))))).

(** Truth value of a string, as [if genre:] tests it: the empty string is
    false, like the default [None]. *)
Definition truthy (s : string) : bool := negb (String.eqb s "").

Definition db_create_dataframe (genre : option string) : IO DataFrame :=
  let stmt :=
    match genre with
    | Some g => if truthy g then SelectWhereGenre g else SelectAll
    | None => SelectAll
    end in
  data ← execute stmt;
  mret (map row_of_song data).

(** ** Column operations of a data frame *)

(** [df[key]] *)
Definition getcol (key : string) (df : DataFrame) : result (list value) :=
  traverse (fun r => getitem r key) df.

(** [df[key] = values]: a column of another length is a [ValueError]. *)
Definition setcol (key : string) (values : list value) (df : DataFrame)
  : result DataFrame :=
  if (length values =? length df)%nat
  then Ok (zip_with (fun r v => <[key := v]> r) df values)
  else Raise ValueError.

(** [column == s], elementwise: a cell that is not that string is [False]. *)
Definition value_is_str (s : string) (v : value) : bool :=
  match v with
  | VStr s' => String.eqb s' s
  | _ => false
  end.

(** [df[df[key] == s]] *)
Definition where_eq (key s : string) (df : DataFrame) : result DataFrame :=
  col ← getcol key df;
  Ok (map fst (List.filter (fun rv => value_is_str s (snd rv)) (combine df col))).

(** [df[[k1, ..., kn]]], one row. *)
Definition project (keys : list string) (r : Row) : result Row :=
  vs ← traverse (getitem r) keys;
  Ok (list_to_map (combine keys vs)).

(** ** The mood table *)

Inductive response : Type :=
  | Redirect (endpoint : string)
  | RenderMood (genre mood : string) (songs : list (gmap string value)).

(** The frame operations of [submit_mood], lines 106 to 112, in source
    order: the mood column is computed first, then the two feature columns
    are overwritten with their labels. *)
Definition mood_table (mood : string) (df : DataFrame) : result (list (gmap string value)) :=
  moods ← traverse map_mood df;
  df ← setcol "mood" (map VStr moods) df;
  col ← getcol "danceability" df;
  labels ← traverse dance_energy_category col;
  df ← setcol "danceability" (map VStr labels) df;
  col ← getcol "energy" df;
  labels ← traverse dance_energy_category col;
  df ← setcol "energy" (map VStr labels) df;
  selected ← where_eq "mood" mood df;
  traverse (project ["track_name"; "artists"; "danceability"; "energy"]) selected.

Definition submit_mood (form_mood : string) (session : gmap string string)
  : IO (response * gmap string string) :=
  let session := <["mood" := form_mood]> session in
  match session !! "genre" with
  | None => mret (Redirect "home", session)
  | Some genre =>
      df ← db_create_dataframe (Some genre);
      songs ← lift (mood_table form_mood df);
      mret (RenderMood genre form_mood songs, session)
  end.

(** ** Figures *)

(** What the drawing calls put on an [Axes]: the data series, not pixels. *)
Inductive artist : Type :=
  | Bar (x : list string) (height : list spec_float) (color : string)
  | Scatter (x y : list value) (label color : string).

Record Axes : Type := {
  ax_title : string;
  ax_xlabel : string;
  ax_ylabel : string;
  ax_artists : list artist
}.

Abbreviation Figure := (list Axes).

(** ** Top genres by mean popularity *)

Definition as_str (v : value) : result string :=
  match v with
  | VStr s => Ok s
  | _ => Raise TypeError
  end.

Definition as_int (v : value) : result Z :=
  match v with
  | VInt z => Ok z
  | _ => Raise TypeError
  end.

(** Group keys of [groupby(key)] with its default [sort=True]: the distinct
    keys in ascending order, whatever the order of the rows. *)
Fixpoint insert_key (k : string) (l : list string) : list string :=
  match l with
  | [] => [k]
  | h :: t =>
      match String.compare k h with
      | Lt => k :: l
      | Eq => l
      | Gt => h :: insert_key k t
      end
  end.

Definition sorted_unique (l : list string) : list string :=
  fold_right insert_key [] l.

(** The values of the rows of one group, in row order. *)
Definition group (k : string) (kvs : list (string * Z)) : list Z :=
  map snd (List.filter (fun kv => String.eqb (fst kv) k) kvs).

(** [mean()] of an integer column: a binary64 number that pandas
    accumulates from the values in row order.  The routine belongs to the
    library; the embedding takes it as a parameter and fixes nothing about
    its rounding. *)
Class Mean : Type := { mean : list Z -> spec_float }.

(** The grouped series: one entry per group key, in key order. *)
Definition groupby_mean_pairs `{Mean} (kvs : list (string * Z))
  : list (string * spec_float) :=
  map (fun k => (k, mean (group k kvs))) (sorted_unique (map fst kvs)).

(** [df.groupby(key)[col].mean()]: the table's schema makes the key column
    text and the value column integer; a frame built from the table takes no
    other branch of [as_str] and [as_int]. *)
Definition groupby_mean `{Mean} (key col : string) (df : DataFrame)
  : result (list (string * spec_float)) :=
  ks ← getcol key df;
  ks ← traverse as_str ks;
  vs ← getcol col df;
  vs ← traverse as_int vs;
  Ok (groupby_mean_pairs (combine ks vs)).

(** [a] sorts strictly after [b] when values are sorted in descending
    order: it is the smaller number, or it is NaN and [b] is not, NaN going
    last whatever the direction. *)
Definition sorts_after (a b : spec_float) : bool :=
  match a, b with
  | S754_nan, S754_nan => false
  | S754_nan, _ => true
  | _, S754_nan => false
  | _, _ => match SFcompare a b with Some Lt => true | _ => false end
  end.

(** The default sort kind is not stable: it promises no order among entries
    of equal value.  [tie_before] stands for whatever the sort does with two
    such entries, named by their index labels; every statement about a sorted
    series is made for every [SortKind]. *)
Class SortKind : Type := { tie_before : string -> string -> bool }.

(** [sort_values(ascending=False)]: entries of larger value first, entries
    of equal value as the sort kind leaves them. *)
Fixpoint insert_desc `{SortKind} (x : string * spec_float)
    (l : list (string * spec_float)) : list (string * spec_float) :=
  match l with
  | [] => [x]
  | y :: l' =>
      if sorts_after (snd y) (snd x) then x :: l
      else if sorts_after (snd x) (snd y) then y :: insert_desc x l'
      else if tie_before (fst x) (fst y) then x :: l
      else y :: insert_desc x l'
  end.

Definition sort_values_desc `{SortKind} (l : list (string * spec_float))
  : list (string * spec_float) :=
  fold_right insert_desc [] l.

Definition create_figure_genre_popularity `{Mean} `{SortKind} : IO Figure :=
  df ← db_create_dataframe None;
  genre_popularity ← lift (sort_values_desc <$> groupby_mean "track_genre" "popularity" df);
  let top_genres := firstn 10 genre_popularity in
  mret [ {| ax_title := "Average Popularity vs Top 10 Genres";
            ax_xlabel := "Genre";
            ax_ylabel := "Popularity";
            ax_artists := [Bar (map fst top_genres) (map snd top_genres) "skyblue"] |} ].

(** The bars of a figure: genre and height of every bar drawn. *)
Definition bars_of_artist (a : artist) : list (string * spec_float) :=
  match a with
  | Bar x height _ => combine x height
  | Scatter _ _ _ _ => []
  end.

Definition bars (fig : Figure) : list (string * spec_float) :=
  concat (map (fun ax => concat (map bars_of_artist (ax_artists ax))) fig).

(** ** Actual and predicted danceability *)

(** The least-squares solver behind [LinearRegression] is a numerical
    library routine; the embedding takes it as a parameter.  From a training
    matrix and a target it either raises or returns the fitted model, which
    predicts a number for one row of features. *)
Class Estimator : Type := {
  fit : list (list value) -> list value -> result (list value -> spec_float)
}.

Definition is_finite_number (v : value) : bool :=
  match v with
  | VInt _ => true
  | VFloat (S754_zero _) => true
  | VFloat (S754_finite _ _ _) => true
  | _ => false
  end.

(** What [fit] checks before it solves (scikit-learn validates its input
    with at least one sample required and NaN and infinities refused): a
    cell that is not a finite number, or a matrix with no sample, is a
    [ValueError]. *)
Definition check_X_y (X : list (list value)) (y : list value) : result unit :=
  if forallb (forallb is_finite_number) X && forallb is_finite_number y
  then if (length X =? 0)%nat then Raise ValueError else Ok tt
  else Raise ValueError.

(** [model.fit(X, y); model.predict(X)] *)
Definition fit_predict `{Estimator} (X : list (list value)) (y : list value)
  : result (list value) :=
  _ ← check_X_y X y;
  model ← fit X y;
  Ok (map (fun x => VFloat ((model : list value -> spec_float) x)) X).

Definition colors : list (string * string) :=
  [("Low", "red"); ("Medium", "orange"); ("High", "green")].

(** One [scatter] call of the loop over [colors.items()]. *)
Definition scatter_of (ycol : string) (df : DataFrame) (cc : string * string)
  : result artist :=
  subset ← where_eq "energy_category" (fst cc) df;
  xs ← getcol "energy" subset;
  ys ← getcol ycol subset;
  Ok (Scatter xs ys (fst cc) (snd cc)).

Definition create_figure_danceability_energy `{Estimator} (genre : string) : IO Figure :=
  df ← db_create_dataframe (Some genre);
  lift (
    X ← traverse (fun r => traverse (getitem r) ["energy"; "acousticness"; "liveness"]) df;
    y ← getcol "danceability" df;
    predicted ← fit_predict X y;
    df ← setcol "predicted_danceability" predicted df;
    col ← getcol "energy" df;
    labels ← traverse dance_energy_category col;
    df ← setcol "energy_category" (map VStr labels) df;
    actual ← traverse (scatter_of "danceability" df) colors;
    pred ← traverse (scatter_of "predicted_danceability" df) colors;
    Ok [ {| ax_title := "Actual Danceability vs Energy (" ++ genre ++ ")";
            ax_xlabel := "Energy";
            ax_ylabel := "Danceability";
            ax_artists := actual |};
         {| ax_title := "Predicted Danceability vs Energy (" ++ genre ++ ")";
            ax_xlabel := "Energy";
            ax_ylabel := "Predicted Danceability";
            ax_artists := pred |} ]).

(** ** The rules as the specification words them *)

Definition is_number (v : value) : bool :=
  match v with
  | VStr _ => false
  | _ => true
  end.

Definition is_nan (v : value) : bool :=
  match v with
  | VFloat S754_nan => true
  | _ => false
  end.

(** A comparison that holds: it raised nothing and answered true. *)
Definition holds (r : result bool) : bool :=
  match r with
  | Ok b => b
  | Raise _ => false
  end.

Record features : Type := {
  f_valence : value;
  f_energy : value;
  f_tempo : value;
  f_danceability : value
}.

Definition rule_happy (x : features) : bool :=
  holds (py_gt (f_valence x) (VFloat f0_7)) && holds (py_gt (f_energy x) (VFloat f0_7)).
Definition rule_relaxing (x : features) : bool :=
  holds (py_lt (f_tempo x) (VInt 90)) && holds (py_lt (f_energy x) (VFloat f0_5)).
Definition rule_workout (x : features) : bool :=
  holds (py_gt (f_tempo x) (VInt 120)) && holds (py_gt (f_energy x) (VFloat f0_7)).
Definition rule_party (x : features) : bool :=
  holds (py_gt (f_danceability x) (VFloat f0_7)) && holds (py_gt (f_energy x) (VFloat f0_7)).

(** The ordered decision list of the classifier. *)
Definition mood_rules : list ((features -> bool) * string) :=
  [ (rule_happy, "Happy"); (rule_relaxing, "Relaxing");
    (rule_workout, "Workout"); (rule_party, "Party") ].

Definition first_match (rules : list ((features -> bool) * string)) (x : features)
  : string :=
  match find (fun r => fst r x) rules with
  | Some r => snd r
  | None => "Other"
  end.

Definition numeric_features (x : features) : bool :=
  is_number (f_valence x) && is_number (f_energy x) &&
  is_number (f_tempo x) && is_number (f_danceability x).

(** The row carries the four features under their column names. *)
Definition has_features (row : Row) (x : features) : Prop :=
  row !! "valence" = Some (f_valence x) /\
  row !! "energy" = Some (f_energy x) /\
  row !! "tempo" = Some (f_tempo x) /\
  row !! "danceability" = Some (f_danceability x).

Definition category_labels : list string := ["Low"; "Medium"; "High"].
Definition mood_labels : list string :=
  ["Happy"; "Relaxing"; "Workout"; "Party"; "Other"].

(** ** Sample data *)

(** More binary64 literals, for concrete rows. *)
Definition f0_1 : spec_float := S754_finite false 7205759403792794 (-56).
Definition f0_2 : spec_float := S754_finite false 7205759403792794 (-55).
Definition f0_3 : spec_float := S754_finite false 5404319552844595 (-54).
Definition f0_8 : spec_float := S754_finite false 7205759403792794 (-53).
Definition f0_9 : spec_float := S754_finite false 8106479329266893 (-53).
Definition f60 : spec_float := S754_finite false 8444249301319680 (-47).
Definition f80 : spec_float := S754_finite false 5629499534213120 (-46).
Definition f100 : spec_float := S754_finite false 7036874417766400 (-46).
Definition f130 : spec_float := S754_finite false 4573968371548160 (-45).

Definition song (name genre : string) (pop : Z) (d e v t : spec_float) : Song :=
  {| track_name := name; artists := "artist"; track_genre := genre;
     popularity := pop; danceability := d; energy := e; valence := v;
     tempo := t; acousticness := f0_5; liveness := f0_1 |}.

Definition features_of (s : Song) : features :=
  {| f_valence := VFloat (valence s); f_energy := VFloat (energy s);
     f_tempo := VFloat (tempo s); f_danceability := VFloat (danceability s) |}.

(** Bright, loud and fast: the conditions of rules 1 and 3 both hold. *)
Definition bright : Song := song "bright" "pop" 70 f0_2 f0_8 f0_8 f130.
Definition calm : Song := song "calm" "ambient" 40 f0_9 f0_3 f0_2 f80.
Definition quiet : Song := song "quiet" "ambient" 20 f0_1 f0_1 f0_1 f60.
Definition undefined_song : Song :=
  song "nan" "pop" 0 S754_nan S754_nan S754_nan S754_nan.

Definition sample_db : Database := {| songs_table := Some [bright; calm; quiet] |}.
Definition empty_db : Database := {| songs_table := Some [] |}.

(** ** The mood table as a function of the raw features *)

Definition category_of (f : spec_float) : string :=
  if SFltb f f0_4 then "Low" else if SFltb f f0_7 then "Medium" else "High".

Definition mood_of (s : Song) : string := first_match mood_rules (features_of s).

(** The record shown for a song: its name and artists, and the labels of
    its own raw danceability and energy. *)
Definition shown_row (s : Song) : Row :=
  list_to_map
    [ ("track_name", VStr (track_name s)); ("artists", VStr (artists s));
      ("danceability", VStr (category_of (danceability s)));
      ("energy", VStr (category_of (energy s))) ].

(** The songs a genre argument selects: none given, or the empty string,
    selects the whole table. *)
Definition selected_songs (genre : option string) (rows : list Song) : list Song :=
  match genre with
  | Some g =>
      if String.eqb g "" then rows
      else List.filter (fun s => String.eqb (track_genre s) g) rows
  | None => rows
  end.

(** A computation that leaves the database as it found it. *)
Definition read_only {A : Type} (m : IO A) : Prop :=
  forall db, snd (m db) = db.

(** Stand-ins for the library routines in closed examples: a solver that
    returns the model predicting 0.0 and one that raises; a mean that
    converts the first value of the group (exact on small integers); a sort
    that leaves equal values in the order of its input and one that reverses
    them. *)
Definition constant_model : Estimator :=
  {| fit := fun _ _ => Ok (fun _ => S754_zero false) |}.
Definition failing_model : Estimator := {| fit := fun _ _ => Raise ValueError |}.

Definition float_of_small (z : Z) : spec_float :=
  match z with
  | Z0 => S754_zero false
  | Zpos p => S754_finite false p 0
  | Zneg p => S754_finite true p 0
  end.
Definition first_value_mean : Mean :=
  {| mean := fun l => match l with [] => S754_nan | z :: _ => float_of_small z end |}.
Definition stable_kind : SortKind := {| tie_before := fun _ _ => true |}.
Definition reversing_kind : SortKind := {| tie_before := fun _ _ => false |}.

Definition pop_session : gmap string string := {["genre" := "pop"]}.

(** ** The genre chart as the specification words it *)

(** The mean of the popularity values of a genre, taken in row order. *)
Definition mean_popularity `{Mean} (g : string) (rows : list Song) : spec_float :=
  mean (map popularity (List.filter (fun s => String.eqb (track_genre s) g) rows)).

(** The distinct entries of a list, in order of first appearance. *)
Fixpoint first_appearance (l : list string) : list string :=
  match l with
  | [] => []
  | k :: t => k :: List.filter (fun x => negb (String.eqb x k)) (first_appearance t)
  end.

(** Mean popularity descending over the genres taken in first-appearance
    order, equal means keeping that order (a stable sort), cut at ten. *)
Definition spec_top_genres `{Mean} (rows : list Song) : list (string * spec_float) :=
  firstn 10
    (sort_values_desc (H := stable_kind)
       (map (fun g => (g, mean_popularity g rows))
          (first_appearance (map track_genre rows)))).

Definition str_lt (a b : string) : Prop := String.compare a b = Lt.

(** The order of the bars: no bar sorts strictly after a later one. *)
Definition not_after (a b : string * spec_float) : Prop :=
  sorts_after (snd a) (snd b) = false.

(** Where a float stands in a descending sort, as a triple compared
    lexicographically: class (NaN lowest, then -inf, negative, zero,
    positive, +inf), then exponent and mantissa, negated for negatives. *)
Definition rank (f : spec_float) : Z * (Z * Z) :=
  match f with
  | S754_nan => (-3, (0, 0))
  | S754_infinity true => (-2, (0, 0))
  | S754_finite true m e => (-1, (- e, Z.neg m))
  | S754_zero _ => (0, (0, 0))
  | S754_finite false m e => (1, (e, Z.pos m))
  | S754_infinity false => (2, (0, 0))
  end.

Definition lex_lt (a b : Z * (Z * Z)) : Prop :=
  fst a < fst b \/
  (fst a = fst b /\
   (fst (snd a) < fst (snd b) \/
    (fst (snd a) = fst (snd b) /\ snd (snd a) < snd (snd b)))).

(** Two genres of equal mean popularity, the later name first in the table. *)
Definition tie_rows : list Song :=
  [ song "t1" "b" 50 f0_5 f0_5 f0_5 f100; song "t2" "a" 50 f0_5 f0_5 f0_5 f100 ].
Definition tie_db : Database := {| songs_table := Some tie_rows |}.

(** Genre and popularity of every row, and the entries of the chart in
    terms of the table. *)
Definition genre_pairs (rows : list Song) : list (string * Z) :=
  map (fun s => (track_genre s, popularity s)) rows.

Definition top_genres `{Mean} `{SortKind} (rows : list Song)
  : list (string * spec_float) :=
  firstn 10 (sort_values_desc (groupby_mean_pairs (genre_pairs rows))).

Definition genre_figure (top : list (string * spec_float)) : Figure :=
  [ {| ax_title := "Average Popularity vs Top 10 Genres";
       ax_xlabel := "Genre";
       ax_ylabel := "Popularity";
       ax_artists := [Bar (map fst top) (map snd top) "skyblue"] |} ].

(** ** The danceability figure in terms of the table *)

Definition feature_row (s : Song) : list value :=
  [VFloat (energy s); VFloat (acousticness s); VFloat (liveness s)].

Definition finite_song (s : Song) : bool :=
  is_finite_number (VFloat (energy s)) && is_finite_number (VFloat (acousticness s)) &&
  is_finite_number (VFloat (liveness s)) && is_finite_number (VFloat (danceability s)).

Definition in_category (c : string) (s : Song) : bool :=
  String.eqb (category_of (energy s)) c.

(** The points of one energy level: energy against [yval]. *)
Definition scatter_series (yval : Song -> value) (sel : list Song) (cc : string * string)
  : artist :=
  Scatter (map (fun s => VFloat (energy s)) (List.filter (in_category (fst cc)) sel))
          (map yval (List.filter (in_category (fst cc)) sel))
          (fst cc) (snd cc).

Definition predicted_of (model : list value -> spec_float) (s : Song) : value :=
  VFloat (model (feature_row s)).

(** What [fit] is called with for a selection of songs. *)
Definition fit_songs `{Estimator} (sel : list Song)
  : result (list value -> spec_float) :=
  fit (map feature_row sel) (map (fun s => VFloat (danceability s)) sel).

Definition danceability_figure (model : list value -> spec_float)
    (genre : string) (sel : list Song) : Figure :=
  [ {| ax_title := "Actual Danceability vs Energy (" ++ genre ++ ")";
       ax_xlabel := "Energy";
       ax_ylabel := "Danceability";
       ax_artists :=
         map (scatter_series (fun s => VFloat (danceability s)) sel) colors |};
    {| ax_title := "Predicted Danceability vs Energy (" ++ genre ++ ")";
       ax_xlabel := "Energy";
       ax_ylabel := "Predicted Danceability";
       ax_artists := map (scatter_series (predicted_of model) sel) colors |} ].


(** ** The other routes *)

(** [SELECT DISTINCT track_genre FROM songs]: each genre once.  SQL fixes no
    order for the result; the embedding lists the genres as a scan of the
    table first meets them. *)
Definition db_get_genres : IO (list string) := fun db =>
  match songs_table db with
  | None => (Raise OperationalError, db)
  | Some rows => (Ok (first_appearance (map track_genre rows)), db)
  end.

(** What a route other than [submit_mood] answers with. *)
Inductive view : Type :=
  | HomePage (genres : list string) (message : string)
  | GenrePage (genre : string)
  | RedirectHome
  | RedirectGenre (genre : string).

Definition home : IO view :=
  genres ← db_get_genres;
  mret (HomePage genres "Please select a genre.").

(** The genre is stored in the session before it is tested. *)
Definition submit_genre (form_genre : string) (session : gmap string string)
  : view * gmap string string :=
  let session := <["genre" := form_genre]> session in
  if negb (truthy form_genre)
  then (RedirectHome, session)
  else (RedirectGenre form_genre, session).

Definition genre_data (genre : string) : view := GenrePage genre.

Definition catch_all (path : string) : view := RedirectHome.

(** ** The import script *)

(** A line of [spotify.csv] as [read_csv] sees it: a cell is missing or
    holds a value; [c_others] are the columns the application never reads. *)
Record CsvRow : Type := {
  c_track_name : option string;
  c_artists : option string;
  c_track_genre : option string;
  c_popularity : option Z;
  c_danceability : option spec_float;
  c_energy : option spec_float;
  c_valence : option spec_float;
  c_tempo : option spec_float;
  c_acousticness : option spec_float;
  c_liveness : option spec_float;
  c_others : list (option value)
}.

(** A numeric cell counts as missing when it is NaN, as an empty one does. *)
Definition notna (c : option spec_float) : option spec_float :=
  match c with
  | Some S754_nan => None
  | _ => c
  end.

Definition cell_present (c : option value) : bool :=
  match c with
  | Some v => negb (is_nan v)
  | None => false
  end.

(** The row with all its cells, when none is missing. *)
Definition complete_row (r : CsvRow) : option Song :=
  name ← c_track_name r;
  arts ← c_artists r;
  genre ← c_track_genre r;
  pop ← c_popularity r;
  d ← notna (c_danceability r);
  e ← notna (c_energy r);
  v ← notna (c_valence r);
  t ← notna (c_tempo r);
  a ← notna (c_acousticness r);
  l ← notna (c_liveness r);
  if forallb cell_present (c_others r)
  then Some {| track_name := name; artists := arts; track_genre := genre;
               popularity := pop; danceability := d; energy := e; valence := v;
               tempo := t; acousticness := a; liveness := l |}
  else None.

(** [data.dropna()]: the rows with a missing cell go. *)
Definition dropna (data : list CsvRow) : list Song := omap complete_row data.

(** The columns [drop_duplicates] compares. *)
Definition subset_key (s : Song) : string * string := (track_name s, artists s).

Definition same_key (a b : Song) : bool :=
  String.eqb (track_name a) (track_name b) && String.eqb (artists a) (artists b).

(** [drop_duplicates(subset=['track_name', 'artists'], keep='first')]: of
    the rows that agree on both columns the first stays, in its place. *)
Fixpoint drop_duplicates (data : list Song) : list Song :=
  match data with
  | [] => []
  | s :: rest => s :: List.filter (fun x => negb (same_key x s)) (drop_duplicates rest)
  end.

(** [to_sql('songs', conn, if_exists='replace', index=False)]: whatever the
    database held, table [songs] is now these rows. *)
Definition to_sql (rows : list Song) : IO unit := fun _ =>
  (Ok tt, {| songs_table := Some rows |}).

Definition db_convert (csv : list CsvRow) : IO unit :=
  to_sql (drop_duplicates (dropna csv)).

(** ** Sizes and sample input for the import *)

(** Number of records [submit_mood] would list for a mood. *)
Definition table_size (mood : string) (songs : list Song) : nat :=
  match mood_table mood (map row_of_song songs) with
  | Ok t => length t
  | Raise _ => 0%nat
  end.

Definition points (a : artist) : nat :=
  match a with
  | Bar x _ _ => length x
  | Scatter x _ _ _ => length x
  end.

Definition no_nan (s : Song) : bool :=
  negb (is_nan (VFloat (danceability s))) && negb (is_nan (VFloat (energy s))) &&
  negb (is_nan (VFloat (valence s))) && negb (is_nan (VFloat (tempo s))) &&
  negb (is_nan (VFloat (acousticness s))) && negb (is_nan (VFloat (liveness s))).

Definition csv_of (s : Song) : CsvRow :=
  {| c_track_name := Some (track_name s); c_artists := Some (artists s);
     c_track_genre := Some (track_genre s); c_popularity := Some (popularity s);
     c_danceability := Some (danceability s); c_energy := Some (energy s);
     c_valence := Some (valence s); c_tempo := Some (tempo s);
     c_acousticness := Some (acousticness s); c_liveness := Some (liveness s);
     c_others := [Some (VStr "album")] |}.

(** A file with a repeated track under another genre and a line whose
    features are NaN. *)
Definition sample_csv : list CsvRow :=
  [ csv_of bright;
    csv_of (song "bright" "dance" 10 f0_2 f0_8 f0_8 f130);
    csv_of undefined_song;
    csv_of calm ].

(** Neither bright, slow, fast nor danceable: no left operand of a rule
    holds. *)
Definition plain : Song := song "plain" "pop" 50 f0_2 f0_8 f0_2 f100.

(** A series of the danceability figure is well formed: as many y as x
    values, and every x is an energy of the series' own label. *)
Definition series_ok (a : artist) : Prop :=
  match a with
  | Scatter xs ys label _ =>
      length ys = length xs /\ Forall (fun x => dance_energy_category x = Ok label) xs
  | Bar _ _ _ => False
  end.

(** * Properties *)

(** ** Comparisons *)

Lemma py_compare_number (a b : value) :
  is_number a = true -> is_number b = true ->
  exists c, py_compare a b = Ok c.
Proof.
  destruct a, b; simpl; intros Ha Hb; try discriminate; eauto.
Qed.

Lemma py_gt_holds (a b : value) :
  is_number a = true -> is_number b = true ->
  py_gt a b = Ok (holds (py_gt a b)).
Proof.
  intros Ha Hb. destruct (py_compare_number a b Ha Hb) as [c Hc].
  unfold py_gt. rewrite Hc. reflexivity.
Qed.

Lemma py_lt_holds (a b : value) :
  is_number a = true -> is_number b = true ->
  py_lt a b = Ok (holds (py_lt a b)).
Proof.
  intros Ha Hb. destruct (py_compare_number a b Ha Hb) as [c Hc].
  unfold py_lt. rewrite Hc. reflexivity.
Qed.

(** A NaN operand makes every strict comparison false, on either side. *)
Lemma py_compare_nan_l (b : value) :
  is_number b = true -> py_compare (VFloat S754_nan) b = Ok None.
Proof. destruct b; simpl; intros; try discriminate; reflexivity. Qed.

(** ** map_mood on numeric rows *)

Lemma map_mood_numeric (row : Row) (x : features) :
  numeric_features x = true -> has_features row x ->
  map_mood row = Ok (first_match mood_rules x).
Proof.
  intros Hn (Hv & He & Ht & Hd).
  unfold numeric_features in Hn.
  apply andb_prop in Hn as [Hn Hnd]. apply andb_prop in Hn as [Hn Hnt].
  apply andb_prop in Hn as [Hnv Hne].
  unfold map_mood, getitem. rewrite Hv, He, Ht, Hd.
  unfold first_match, mood_rules, find, fst, snd.
  unfold rule_happy, rule_relaxing, rule_workout, rule_party.
  cbn [mbind result_bind].
  rewrite (py_gt_holds (f_valence x) (VFloat f0_7) Hnv eq_refl).
  rewrite (py_gt_holds (f_energy x) (VFloat f0_7) Hne eq_refl).
  rewrite (py_lt_holds (f_tempo x) (VInt 90) Hnt eq_refl).
  rewrite (py_lt_holds (f_energy x) (VFloat f0_5) Hne eq_refl).
  rewrite (py_gt_holds (f_tempo x) (VInt 120) Hnt eq_refl).
  rewrite (py_gt_holds (f_danceability x) (VFloat f0_7) Hnd eq_refl).
  generalize (holds (py_gt (f_valence x) (VFloat f0_7))); intros b1.
  generalize (holds (py_gt (f_energy x) (VFloat f0_7))); intros b2.
  generalize (holds (py_lt (f_tempo x) (VInt 90))); intros b3.
  generalize (holds (py_lt (f_energy x) (VFloat f0_5))); intros b4.
  generalize (holds (py_gt (f_tempo x) (VInt 120))); intros b5.
  generalize (holds (py_gt (f_danceability x) (VFloat f0_7))); intros b6.
  destruct b1, b2, b3, b4, b5, b6; reflexivity.
Qed.

Lemma has_features_row_of_song (s : Song) : has_features (row_of_song s) (features_of s).
Proof. repeat split. Qed.

(** The rule bodies are strict: a feature equal to its threshold fails. *)
Lemma first_match_cases (x : features) :
  first_match mood_rules x =
    if rule_happy x then "Happy"
    else if rule_relaxing x then "Relaxing"
    else if rule_workout x then "Workout"
    else if rule_party x then "Party" else "Other".
Proof.
  unfold first_match, mood_rules. cbn [find fst snd].
  destruct (rule_happy x), (rule_relaxing x), (rule_workout x), (rule_party x);
    reflexivity.
Qed.

(** C1: on a record with numeric features the classifier returns the label
    of the first rule of the ordered list whose condition holds, and Other
    when none does.  A record meeting rules 1 and 3 at once is Happy; the
    comparisons are strict, so a record with valence exactly 0.7 is never
    Happy, and one with energy exactly 0.7 fails rules 1, 3, 4 and (0.7 not
    being below 0.5) rule 2, ending in Other. *)
Theorem map_mood_first_matching_rule (row : Row) (x : features) :
  numeric_features x = true -> has_features row x ->
  map_mood row = Ok (first_match mood_rules x) /\
  (rule_happy x = true -> rule_workout x = true -> map_mood row = Ok "Happy") /\
  (f_valence x = VFloat f0_7 -> map_mood row <> Ok "Happy") /\
  (f_energy x = VFloat f0_7 -> map_mood row = Ok "Other").
Proof.
  intros Hn Hf. rewrite (map_mood_numeric row x Hn Hf), first_match_cases.
  split; [reflexivity|]. split; [|split].
  - intros H1 _. rewrite H1. reflexivity.
  - intros Hv. unfold rule_happy. rewrite Hv. cbn [holds py_gt py_compare mbind result_bind].
    change (SFcompare f0_7 f0_7) with (Some Eq). cbn [andb].
    destruct (rule_relaxing x), (rule_workout x), (rule_party x); discriminate.
  - intros He. unfold rule_happy, rule_relaxing, rule_workout, rule_party.
    rewrite He. cbn [holds py_gt py_lt py_compare mbind result_bind].
    change (SFcompare f0_7 f0_7) with (Some Eq).
    change (SFcompare f0_7 f0_5) with (Some Gt).
    rewrite !andb_false_r. reflexivity.
Qed.

Lemma map_mood_first_matching_rule_witness :
  map_mood (row_of_song bright) = Ok "Happy".
Proof.
  destruct (map_mood_first_matching_rule (row_of_song bright) (features_of bright))
    as (_ & H & _).
  - reflexivity.
  - apply has_features_row_of_song.
  - apply H; reflexivity.
Defined.

(** ** dance_energy_category *)

(** Both thresholds against one number: the comparisons are defined and
    consistent, in that a value not below 0.7 is above 0.4.  The float case
    follows [SFcompare] through signs, exponents and mantissas; the integer
    case compares exact multiples of a power of two. *)
Lemma compare_thresholds (v : value) :
  is_number v = true -> is_nan v = false ->
  exists c4 c7,
    py_compare v (VFloat f0_4) = Ok (Some c4) /\
    py_compare v (VFloat f0_7) = Ok (Some c7) /\
    (c7 <> Lt -> c4 = Gt).
Proof.
  intros Hn Hnan. destruct v as [z | f | s]; [| | discriminate].
  - cbn [py_compare f0_4 f0_7 SFcompare_Z option_map].
    change (0 <=? -54) with false. change (0 <=? -53) with false.
    change (- -54) with 54. change (- -53) with 53.
    do 2 eexists. split; [reflexivity|]. split; [reflexivity|].
    change (2 ^ 54) with 18014398509481984. change (2 ^ 53) with 9007199254740992.
    intros H.
    destruct (Z.compare_spec 6305039478318694 (z * 9007199254740992)) as [E|L|G];
      cbn [CompOpp] in H; try congruence;
      destruct (Z.compare_spec 7205759403792794 (z * 18014398509481984));
      cbn [CompOpp]; try reflexivity; lia.
  - destruct f as [sg | sg | | sg m e]; [| | discriminate |].
    + exists Lt, Lt. repeat split; congruence.
    + destruct sg; [exists Lt, Lt | exists Gt, Gt]; repeat split; congruence.
    + destruct sg; [exists Lt, Lt; repeat split; congruence |].
      cbn [py_compare f0_4 f0_7 SFcompare].
      do 2 eexists. split; [reflexivity|]. split; [reflexivity|].
      intros H.
      destruct (Z.compare_spec e (-53)) as [E|L|G]; [| congruence |];
        destruct (Z.compare_spec e (-54)); try reflexivity; lia.
Qed.

(** C2: every number that is not NaN is put in exactly the band its value
    selects: Low below 0.4, Medium from 0.4 up to but excluding 0.7, High from
    0.7 on, with 0.4 itself Medium and 0.7 itself High.  One of the three
    bands always applies, for negative values and values above 1 as well. *)
Theorem dance_energy_category_thresholds (v : value) :
  is_number v = true -> is_nan v = false ->
  (py_lt v (VFloat f0_4) = Ok true -> dance_energy_category v = Ok "Low") /\
  (py_ge v (VFloat f0_4) = Ok true -> py_lt v (VFloat f0_7) = Ok true ->
   dance_energy_category v = Ok "Medium") /\
  (py_ge v (VFloat f0_7) = Ok true -> dance_energy_category v = Ok "High") /\
  (py_lt v (VFloat f0_4) = Ok true \/
   (py_ge v (VFloat f0_4) = Ok true /\ py_lt v (VFloat f0_7) = Ok true) \/
   py_ge v (VFloat f0_7) = Ok true) /\
  dance_energy_category (VFloat f0_4) = Ok "Medium" /\
  dance_energy_category (VFloat f0_7) = Ok "High".
Proof.
  intros Hn Hnan.
  destruct (compare_thresholds v Hn Hnan) as (c4 & c7 & H4 & H7 & Hc).
  unfold dance_energy_category, py_lt, py_ge. rewrite H4, H7.
  cbn [mbind result_bind].
  repeat split.
  - destruct c4; intros; try discriminate; reflexivity.
  - destruct c4, c7; intros; try discriminate; reflexivity.
  - destruct c7; intros; try discriminate; rewrite Hc by congruence; reflexivity.
  - destruct c4, c7; auto.
Qed.

Lemma dance_energy_category_thresholds_witness :
  dance_energy_category (VFloat f0_5) = Ok "Medium".
Proof.
  destruct (dance_energy_category_thresholds (VFloat f0_5)) as (_ & H & _).
  - reflexivity.
  - reflexivity.
  - apply H; reflexivity.
Defined.

(** ** NaN and totality on floats *)

Lemma dance_energy_category_float (f : spec_float) :
  exists l, In l category_labels /\ dance_energy_category (VFloat f) = Ok l.
Proof.
  unfold dance_energy_category, py_lt. cbn [py_compare mbind result_bind].
  destruct (SFcompare f f0_4) as [[]|];
    [| exists "Low"; simpl; auto | |];
    (destruct (SFcompare f f0_7) as [[]|];
      [exists "High" | exists "Medium" | exists "High" | exists "High"];
      simpl; auto).
Qed.

Lemma map_mood_labels (row : Row) (x : features) :
  numeric_features x = true -> has_features row x ->
  exists m, In m mood_labels /\ map_mood row = Ok m.
Proof.
  intros Hn Hf. rewrite (map_mood_numeric row x Hn Hf), first_match_cases.
  destruct (rule_happy x), (rule_relaxing x), (rule_workout x), (rule_party x);
    eexists; (split; [|reflexivity]); simpl; auto 6.
Qed.

(** C10: every strict comparison with NaN is false, so NaN is categorised
    High, the final branch; a record whose four compared features are NaN
    matches no rule and is Other.  On float input neither function raises:
    each returns one of its fixed labels. *)
Theorem nan_and_float_inputs_are_labelled (row : Row) (v e t d f : spec_float) :
  has_features row {| f_valence := VFloat v; f_energy := VFloat e;
                      f_tempo := VFloat t; f_danceability := VFloat d |} ->
  (forall b, is_number b = true ->
     py_lt (VFloat S754_nan) b = Ok false /\ py_gt (VFloat S754_nan) b = Ok false) /\
  dance_energy_category (VFloat S754_nan) = Ok "High" /\
  (v = S754_nan -> e = S754_nan -> t = S754_nan -> d = S754_nan ->
   map_mood row = Ok "Other") /\
  (exists l, In l category_labels /\ dance_energy_category (VFloat f) = Ok l) /\
  (exists m, In m mood_labels /\ map_mood row = Ok m).
Proof.
  intros Hf.
  split; [intros b Hb; unfold py_lt, py_gt; rewrite (py_compare_nan_l b Hb); split;
          reflexivity|].
  split; [reflexivity|]. split; [|split].
  - intros -> -> -> ->.
    match type of Hf with
    | has_features _ ?x => rewrite (map_mood_numeric row x eq_refl Hf)
    end.
    reflexivity.
  - apply dance_energy_category_float.
  - eapply map_mood_labels; [|exact Hf]. reflexivity.
Qed.

Lemma nan_and_float_inputs_are_labelled_witness :
  map_mood (row_of_song undefined_song) = Ok "Other".
Proof.
  destruct (nan_and_float_inputs_are_labelled (row_of_song undefined_song)
              S754_nan S754_nan S754_nan S754_nan S754_nan) as (_ & _ & H & _).
  - apply (has_features_row_of_song undefined_song).
  - apply H; reflexivity.
Defined.

(** ** The repository *)

Lemma db_create_dataframe_table (genre : option string) (rows : list Song) :
  db_create_dataframe genre {| songs_table := Some rows |} =
    (Ok (map row_of_song (selected_songs genre rows)), {| songs_table := Some rows |}).
Proof.
  unfold db_create_dataframe, selected_songs.
  destruct genre as [g|]; unfold truthy; [destruct (String.eqb g "")|];
    reflexivity.
Qed.

Lemma db_create_dataframe_no_table (genre : option string) :
  db_create_dataframe genre {| songs_table := None |} =
    (Raise OperationalError, {| songs_table := None |}).
Proof.
  unfold db_create_dataframe.
  destruct genre as [g|]; unfold truthy; [destruct (String.eqb g "")|]; reflexivity.
Qed.

Lemma read_only_ret {A : Type} (a : A) : read_only (mret a).
Proof. intros db. reflexivity. Qed.

Lemma read_only_lift {A : Type} (r : result A) : read_only (lift r).
Proof. intros db. reflexivity. Qed.

Lemma read_only_bind {A B : Type} (m : IO A) (k : A -> IO B) :
  read_only m -> (forall a, read_only (k a)) -> read_only (m ≫= k).
Proof.
  intros Hm Hk db. unfold mbind, IO_bind.
  specialize (Hm db). destruct (m db) as [[a|e] db']; simpl in *; subst.
  - apply Hk.
  - reflexivity.
Qed.

Lemma read_only_execute (stmt : statement) : read_only (execute stmt).
Proof.
  intros db. unfold execute. destruct (songs_table db); [destruct stmt|]; reflexivity.
Qed.

Lemma read_only_db_create_dataframe (genre : option string) :
  read_only (db_create_dataframe genre).
Proof.
  unfold db_create_dataframe. apply read_only_bind.
  - apply read_only_execute.
  - intros data. apply read_only_ret.
Qed.

(** A read-only computation run twice in a row answers twice the same. *)
Lemma read_only_twice {A : Type} (m : IO A) (db : Database) :
  read_only m -> m (snd (m db)) = m db.
Proof. intros Hm. rewrite (Hm db). reflexivity. Qed.

(** C4, amended: for a non-empty genre string and a database holding the
    songs table, the query returns the rows of exactly the records whose
    track_genre is that string, character for character, in table order; it
    is the empty frame, and no error, when no record matches. *)
Theorem db_create_dataframe_genre (g : string) (rows : list Song) :
  g <> "" ->
  db_create_dataframe (Some g) {| songs_table := Some rows |} =
    (Ok (map row_of_song (List.filter (fun s => String.eqb (track_genre s) g) rows)),
     {| songs_table := Some rows |}) /\
  (forall s, In s (List.filter (fun s => String.eqb (track_genre s) g) rows) <->
             In s rows /\ track_genre s = g) /\
  ((forall s, In s rows -> track_genre s <> g) ->
   db_create_dataframe (Some g) {| songs_table := Some rows |} =
     (Ok [], {| songs_table := Some rows |})).
Proof.
  intros Hg. rewrite db_create_dataframe_table. unfold selected_songs.
  apply String.eqb_neq in Hg. rewrite Hg.
  split; [reflexivity|]. split.
  - intros s. rewrite filter_In, String.eqb_eq. reflexivity.
  - intros Hno. replace (List.filter _ rows) with (@nil Song); [reflexivity|].
    symmetry. induction rows as [|s rows IH]; [reflexivity|].
    cbn [List.filter]. destruct (String.eqb_spec (track_genre s) g) as [E|_].
    + exfalso. apply (Hno s); [left; reflexivity | exact E].
    + apply IH. intros s' Hs'. apply Hno. right. exact Hs'.
Qed.

(** The comparison is case-sensitive: "Pop" selects nothing from a table
    whose genres are "pop" and "ambient". *)
Lemma db_create_dataframe_genre_witness :
  db_create_dataframe (Some "Pop") sample_db = (Ok [], sample_db).
Proof.
  destruct (db_create_dataframe_genre "Pop" [bright; calm; quiet]) as (_ & _ & H).
  - discriminate.
  - apply H. intros s [<-|[<-|[<-|[]]]]; discriminate.
Defined.

(** C4 as stated fails on the empty string: [if genre:] takes it for no
    genre, and the whole table comes back, not the empty collection. *)
Lemma db_create_dataframe_empty_string :
  db_create_dataframe (Some "") sample_db =
    (Ok [row_of_song bright; row_of_song calm; row_of_song quiet], sample_db) /\
  List.filter (fun s => String.eqb (track_genre s) "") [bright; calm; quiet] = [].
Proof. split; reflexivity. Qed.

(** ** Column operations on a frame given row by row *)

Section Columns.
Context {A : Type}.
Implicit Types (l : list A) (f : A -> Row) (g : A -> value).

Lemma traverse_map {B C : Type} (k : B -> result C) (b : A -> B) (c : A -> C) l :
  (forall a, In a l -> k (b a) = Ok (c a)) ->
  traverse k (map b l) = Ok (map c l).
Proof.
  induction l as [|a l IH]; intros Hk; [reflexivity|].
  cbn [map traverse]. rewrite (Hk a (or_introl eq_refl)).
  cbn [mbind result_bind]. rewrite IH; [reflexivity|].
  intros a' Ha'. apply Hk. right. exact Ha'.
Qed.

Lemma getcol_map (key : string) f g l :
  (forall a, f a !! key = Some (g a)) ->
  getcol key (map f l) = Ok (map g l).
Proof.
  intros H. unfold getcol. apply traverse_map.
  intros a _. unfold getitem. rewrite H. reflexivity.
Qed.

Lemma zip_with_map {B C D : Type} (h : B -> C -> D) (b : A -> B) (c : A -> C) l :
  zip_with h (map b l) (map c l) = map (fun a => h (b a) (c a)) l.
Proof. induction l as [|a l IH]; [reflexivity|]. cbn. rewrite IH. reflexivity. Qed.

Lemma setcol_map (key : string) f g l :
  setcol key (map g l) (map f l) = Ok (map (fun a => <[key := g a]> (f a)) l).
Proof.
  unfold setcol. rewrite !length_map, Nat.eqb_refl, zip_with_map. reflexivity.
Qed.

Lemma filter_combine_map (p : value -> bool) f g l :
  map fst (List.filter (fun rv => p (snd rv)) (combine (map f l) (map g l))) =
  map f (List.filter (fun a => p (g a)) l).
Proof.
  induction l as [|a l IH]; [reflexivity|].
  cbn [map combine List.filter snd]. destruct (p (g a)); cbn [map fst]; rewrite IH;
    reflexivity.
Qed.

Lemma where_eq_map (key s : string) f g l :
  (forall a, f a !! key = Some (g a)) ->
  where_eq key s (map f l) = Ok (map f (List.filter (fun a => value_is_str s (g a)) l)).
Proof.
  intros H. unfold where_eq. rewrite (getcol_map key f g l H).
  cbn [mbind result_bind]. rewrite filter_combine_map. reflexivity.
Qed.
End Columns.

(** ** The mood table *)

Lemma dance_energy_category_of (f : spec_float) :
  dance_energy_category (VFloat f) = Ok (category_of f).
Proof.
  unfold dance_energy_category, category_of, py_lt, SFltb.
  cbn [py_compare mbind result_bind].
  destruct (SFcompare f f0_4) as [[]|]; try reflexivity;
    destruct (SFcompare f f0_7) as [[]|]; reflexivity.
Qed.

Lemma map_mood_of (s : Song) : map_mood (row_of_song s) = Ok (mood_of s).
Proof.
  apply map_mood_numeric; [reflexivity | apply has_features_row_of_song].
Qed.

Lemma mood_table_songs (mood : string) (songs : list Song) :
  mood_table mood (map row_of_song songs) =
    Ok (map shown_row (List.filter (fun s => String.eqb (mood_of s) mood) songs)).
Proof.
  unfold mood_table.
  rewrite (traverse_map map_mood row_of_song mood_of songs)
    by (intros; apply map_mood_of).
  cbn [mbind result_bind]. rewrite map_map, setcol_map. cbn [mbind result_bind].
  rewrite (getcol_map "danceability" _ (fun s => VFloat (danceability s)))
    by reflexivity.
  cbn [mbind result_bind].
  rewrite (traverse_map dance_energy_category _ (fun s => category_of (danceability s)))
    by (intros; apply dance_energy_category_of).
  cbn [mbind result_bind]. rewrite map_map, setcol_map. cbn [mbind result_bind].
  rewrite (getcol_map "energy" _ (fun s => VFloat (energy s))) by reflexivity.
  cbn [mbind result_bind].
  rewrite (traverse_map dance_energy_category _ (fun s => category_of (energy s)))
    by (intros; apply dance_energy_category_of).
  cbn [mbind result_bind]. rewrite map_map, setcol_map. cbn [mbind result_bind].
  rewrite (where_eq_map "mood" mood _ (fun s => VStr (mood_of s))) by reflexivity.
  cbn [mbind result_bind value_is_str].
  apply traverse_map. intros s _. reflexivity.
Qed.

(** Once the two feature columns hold labels, the classifier can no longer
    be applied: whichever rule is reached first compares a string with a
    float. *)
Lemma map_mood_after_overwrite (s : Song) (l l' : string) :
  map_mood (<["energy" := VStr l]> (<["danceability" := VStr l']> (row_of_song s))) =
    Raise TypeError.
Proof.
  unfold map_mood, getitem.
  change ((<["energy" := VStr l]> (<["danceability" := VStr l']> (row_of_song s))) !! "valence")
    with (Some (VFloat (valence s))).
  change ((<["energy" := VStr l]> (<["danceability" := VStr l']> (row_of_song s))) !! "energy")
    with (Some (VStr l)).
  change ((<["energy" := VStr l]> (<["danceability" := VStr l']> (row_of_song s))) !! "tempo")
    with (Some (VFloat (tempo s))).
  change ((<["energy" := VStr l]> (<["danceability" := VStr l']> (row_of_song s))) !! "danceability")
    with (Some (VStr l')).
  unfold py_and, py_gt, py_lt. cbn [py_compare mbind result_bind].
  destruct (SFcompare (valence s) f0_7) as [[]|]; try reflexivity;
    destruct (SFcompare_Z (tempo s) 90) as [[]|]; try reflexivity;
    destruct (SFcompare_Z (tempo s) 120) as [[]|]; reflexivity.
Qed.

(** C9: the table [submit_mood] renders holds, for each selected song in
    table order, the record of that song: its mood, which decides whether it
    is shown, is the classifier's answer on the raw features read from the
    database, and the danceability and energy shown are the labels of those
    same raw values.  The classifier has to run first: on a row whose two
    columns already hold labels it raises TypeError. *)
Theorem submit_mood_table_from_raw_features
    (mood genre : string) (session : gmap string string) (rows : list Song) :
  session !! "genre" = Some genre ->
  submit_mood mood session {| songs_table := Some rows |} =
    (Ok (RenderMood genre mood
           (map shown_row
              (List.filter (fun s => String.eqb (mood_of s) mood)
                 (selected_songs (Some genre) rows))),
         <["mood" := mood]> session),
     {| songs_table := Some rows |}) /\
  (forall s, map_mood (row_of_song s) = Ok (mood_of s) /\
             dance_energy_category (VFloat (danceability s)) =
               Ok (category_of (danceability s)) /\
             dance_energy_category (VFloat (energy s)) = Ok (category_of (energy s)) /\
             shown_row s !! "track_name" = Some (VStr (track_name s)) /\
             shown_row s !! "danceability" = Some (VStr (category_of (danceability s))) /\
             shown_row s !! "energy" = Some (VStr (category_of (energy s)))) /\
  (forall s l l',
     map_mood (<["energy" := VStr l]> (<["danceability" := VStr l']> (row_of_song s))) =
       Raise TypeError).
Proof.
  intros Hg. split; [|split].
  - unfold submit_mood.
    rewrite lookup_insert_ne by discriminate. rewrite Hg.
    unfold mbind at 1, IO_bind. rewrite db_create_dataframe_table.
    unfold mbind at 1, IO_bind, lift. rewrite mood_table_songs. reflexivity.
  - intros s. split; [apply map_mood_of|].
    split; [apply dance_energy_category_of|].
    split; [apply dance_energy_category_of|].
    repeat split.
  - intros s l l'. apply map_mood_after_overwrite.
Qed.

Lemma submit_mood_table_from_raw_features_witness :
  fst (submit_mood "Happy" pop_session sample_db) =
    Ok (RenderMood "pop" "Happy" [shown_row bright], <["mood" := "Happy"]> pop_session).
Proof.
  destruct (submit_mood_table_from_raw_features "Happy" "pop" pop_session
              [bright; calm; quiet]) as (H & _).
  - reflexivity.
  - unfold sample_db. rewrite H. reflexivity.
Defined.

(** ** Order of strings *)

Lemma ascii_compare_lt_trans (a b c : Ascii.ascii) :
  Ascii.compare a b = Lt -> Ascii.compare b c = Lt -> Ascii.compare a c = Lt.
Proof.
  unfold Ascii.compare. rewrite !N.compare_lt_iff. apply N.lt_trans.
Qed.

Lemma str_lt_trans (a b c : string) : str_lt a b -> str_lt b c -> str_lt a c.
Proof.
  unfold str_lt. revert b c.
  induction a as [|x a IH]; intros [|y b] [|z c]; cbn [String.compare];
    try discriminate; try reflexivity.
  destruct (Ascii.compare x y) eqn:Exy; try discriminate;
    destruct (Ascii.compare y z) eqn:Eyz; try discriminate; intros Hab Hbc.
  - apply Ascii.compare_eq_iff in Exy, Eyz. subst.
    replace (Ascii.compare z z) with Eq
      by (symmetry; unfold Ascii.compare; apply N.compare_refl).
    eapply IH; eassumption.
  - apply Ascii.compare_eq_iff in Exy. subst. rewrite Eyz. reflexivity.
  - apply Ascii.compare_eq_iff in Eyz. subst. rewrite Exy. reflexivity.
  - rewrite (ascii_compare_lt_trans x y z Exy Eyz). reflexivity.
Qed.

Lemma str_compare_refl (a : string) : String.compare a a = Eq.
Proof.
  induction a as [|x a IH]; [reflexivity|]. cbn [String.compare].
  replace (Ascii.compare x x) with Eq
    by (symmetry; unfold Ascii.compare; apply N.compare_refl).
  exact IH.
Qed.

Lemma str_lt_irrefl (a : string) : ~ str_lt a a.
Proof. unfold str_lt. rewrite str_compare_refl. discriminate. Qed.

Lemma str_compare_gt (a b : string) : String.compare a b = Gt -> str_lt b a.
Proof.
  unfold str_lt. intros H. rewrite String.compare_antisym, H. reflexivity.
Qed.

(** ** Group keys *)

Lemma In_insert_key (k : string) (l : list string) (x : string) :
  In x (insert_key k l) <-> x = k \/ In x l.
Proof.
  induction l as [|h t IH]; cbn [insert_key].
  - simpl. intuition.
  - destruct (String.compare k h) eqn:E.
    + apply String.compare_eq_iff in E. subst. simpl. intuition.
    + simpl. intuition.
    + simpl. rewrite IH. intuition.
Qed.

Lemma insert_key_sorted (k : string) (l : list string) :
  StronglySorted str_lt l -> StronglySorted str_lt (insert_key k l).
Proof.
  induction 1 as [|h t Hs IH Hh]; cbn [insert_key].
  - repeat constructor.
  - destruct (String.compare k h) eqn:E.
    + constructor; assumption.
    + constructor; [constructor; assumption|].
      constructor; [exact E|].
      eapply List.Forall_impl; [|exact Hh]. intros y Hy. exact (str_lt_trans k h y E Hy).
    + constructor; [exact IH|].
      apply List.Forall_forall. intros y Hy. apply In_insert_key in Hy as [->|Hy].
      * apply str_compare_gt. exact E.
      * rewrite List.Forall_forall in Hh. apply Hh. exact Hy.
Qed.

Lemma sorted_unique_sorted (l : list string) : StronglySorted str_lt (sorted_unique l).
Proof.
  induction l as [|k l IH]; [constructor|]. apply insert_key_sorted. exact IH.
Qed.

Lemma In_sorted_unique (l : list string) (x : string) :
  In x (sorted_unique l) <-> In x l.
Proof.
  induction l as [|k l IH]; [reflexivity|].
  cbn [sorted_unique fold_right]. rewrite In_insert_key.
  fold (sorted_unique l). rewrite IH. simpl. intuition.
Qed.

Lemma str_sorted_NoDup (l : list string) : StronglySorted str_lt l -> List.NoDup l.
Proof.
  induction 1 as [|h t Hs IH Hh]; constructor; [|exact IH].
  intros Hin. rewrite List.Forall_forall in Hh.
  exact (str_lt_irrefl h (Hh h Hin)).
Qed.

(** As many group keys as distinct entries. *)
Lemma length_sorted_unique (l : list string) :
  length (sorted_unique l) = length (nodup string_dec l).
Proof.
  apply Permutation_length, Stdlib.Sorting.Permutation.NoDup_Permutation.
  - apply str_sorted_NoDup, sorted_unique_sorted.
  - apply List.NoDup_nodup.
  - intros x. rewrite In_sorted_unique, nodup_In. reflexivity.
Qed.

(** ** Sorting by value, descending *)

Lemma insert_desc_perm `{SortKind} (x : string * spec_float)
    (l : list (string * spec_float)) :
  Permutation (insert_desc x l) (x :: l).
Proof.
  induction l as [|y l IH]; cbn [insert_desc]; [reflexivity|].
  destruct (sorts_after (snd y) (snd x)); [reflexivity|].
  destruct (sorts_after (snd x) (snd y)); [rewrite IH; apply perm_swap|].
  destruct (tie_before (fst x) (fst y)); [reflexivity|].
  rewrite IH. apply perm_swap.
Qed.

Lemma sort_values_desc_perm `{SortKind} (l : list (string * spec_float)) :
  Permutation (sort_values_desc l) l.
Proof.
  induction l as [|x l IH]; [reflexivity|].
  cbn [sort_values_desc fold_right]. fold (sort_values_desc l).
  rewrite insert_desc_perm, IH. reflexivity.
Qed.

(** [sorts_after] is the strict order of the ranks: the comparison of
    [SFcompare] by sign, exponent and mantissa, with NaN below everything. *)
Lemma sorts_after_rank (a b : spec_float) :
  sorts_after a b = true <-> lex_lt (rank a) (rank b).
Proof.
  destruct a as [sa | sa | | sa ma ea], b as [sb | sb | | sb mb eb];
    try destruct sa; try destruct sb;
    cbn [sorts_after SFcompare rank]; unfold lex_lt; cbn [fst snd];
    try (split; [intros; try discriminate; lia | intros; try reflexivity; lia]).
  - destruct (Z.compare_spec ea eb);
      [change (PosDef.Pos.compare_cont Eq ma mb) with (Pos.compare ma mb);
       destruct (Pos.compare_spec ma mb)| |];
      cbn [CompOpp]; (split; [intros; try discriminate; lia | intros; try reflexivity; lia]).
  - destruct (Z.compare_spec ea eb);
      [change (PosDef.Pos.compare_cont Eq ma mb) with (Pos.compare ma mb);
       destruct (Pos.compare_spec ma mb)| |];
      (split; [intros; try discriminate; lia | intros; try reflexivity; lia]).
Qed.

Lemma sorts_after_rank_false (a b : spec_float) :
  sorts_after a b = false <-> ~ lex_lt (rank a) (rank b).
Proof.
  rewrite <- sorts_after_rank. destruct (sorts_after a b); split; congruence.
Qed.

(** The three facts about the order the sort needs: it is asymmetric, and
    what sorts strictly before, or level with, an entry sorts no later than
    that entry does. *)
Lemma sorts_after_asym (x y : spec_float) :
  sorts_after y x = true -> sorts_after x y = false.
Proof.
  rewrite sorts_after_rank, sorts_after_rank_false. unfold lex_lt.
  destruct (rank x) as [x1 [x2 x3]], (rank y) as [y1 [y2 y3]]. cbn [fst snd]. lia.
Qed.

Lemma sorts_after_irrefl (x : spec_float) : sorts_after x x = false.
Proof.
  rewrite sorts_after_rank_false. unfold lex_lt.
  destruct (rank x) as [x1 [x2 x3]]. cbn [fst snd]. lia.
Qed.

Lemma not_after_above (x y z : spec_float) :
  sorts_after y x = true -> sorts_after y z = false -> sorts_after x z = false.
Proof.
  rewrite sorts_after_rank, !sorts_after_rank_false. unfold lex_lt.
  destruct (rank x) as [x1 [x2 x3]], (rank y) as [y1 [y2 y3]], (rank z) as [z1 [z2 z3]].
  cbn [fst snd]. lia.
Qed.

Lemma not_after_level (x y z : spec_float) :
  sorts_after y x = false -> sorts_after x y = false ->
  sorts_after y z = false -> sorts_after x z = false.
Proof.
  rewrite !sorts_after_rank_false. unfold lex_lt.
  destruct (rank x) as [x1 [x2 x3]], (rank y) as [y1 [y2 y3]], (rank z) as [z1 [z2 z3]].
  cbn [fst snd]. lia.
Qed.

Lemma insert_desc_sorted `{SortKind} (x : string * spec_float)
    (l : list (string * spec_float)) :
  StronglySorted not_after l -> StronglySorted not_after (insert_desc x l).
Proof.
  induction 1 as [|y l Hs IH Hy]; cbn [insert_desc]; [repeat constructor|].
  rewrite List.Forall_forall in Hy.
  assert (sorts_after (snd y) (snd x) = false ->
          StronglySorted not_after (y :: insert_desc x l)) as Hlater.
  { intros E. constructor; [exact IH|].
    apply List.Forall_forall. intros z Hz.
    apply (Permutation_in _ (insert_desc_perm x l)) in Hz as [<-|Hz];
      [exact E | apply Hy; exact Hz]. }
  assert (sorts_after (snd x) (snd y) = false ->
          (forall z, In z l -> not_after x z) ->
          StronglySorted not_after (x :: y :: l)) as Hfirst.
  { intros E Hl. constructor; [constructor; [exact Hs | apply List.Forall_forall; exact Hy]|].
    constructor; [exact E | apply List.Forall_forall; exact Hl]. }
  destruct (sorts_after (snd y) (snd x)) eqn:E1.
  - apply Hfirst; [apply sorts_after_asym; exact E1|].
    intros z Hz. exact (not_after_above _ _ _ E1 (Hy z Hz)).
  - destruct (sorts_after (snd x) (snd y)) eqn:E2; [apply Hlater; reflexivity|].
    destruct (tie_before (fst x) (fst y)); [|apply Hlater; reflexivity].
    apply Hfirst; [reflexivity|].
    intros z Hz. exact (not_after_level _ _ _ E1 E2 (Hy z Hz)).
Qed.

(** Whatever the sort does with equal values, its result is in descending
    order. *)
Lemma sort_values_desc_sorted `{SortKind} (l : list (string * spec_float)) :
  StronglySorted not_after (sort_values_desc l).
Proof.
  induction l as [|x l IH]; [constructor|].
  cbn [sort_values_desc fold_right]. fold (sort_values_desc l).
  apply insert_desc_sorted. exact IH.
Qed.

Lemma firstn_incl {A : Type} (n : nat) (l : list A) (x : A) :
  In x (firstn n l) -> In x l.
Proof.
  intros H. rewrite <- (firstn_skipn n l). apply in_or_app. left. exact H.
Qed.

Lemma StronglySorted_firstn {A : Type} (R : A -> A -> Prop) (n : nat) (l : list A) :
  StronglySorted R l -> StronglySorted R (firstn n l).
Proof.
  intros H. revert n. induction H as [|x l Hs IH Hx]; intros [|n]; cbn [firstn];
    try constructor.
  - apply IH.
  - rewrite List.Forall_forall in Hx |- *. intros y Hy. apply Hx.
    exact (firstn_incl n l y Hy).
Qed.

(** In a sorted list every entry of a prefix comes before every entry of
    the rest. *)
Lemma StronglySorted_firstn_skipn {A : Type} (R : A -> A -> Prop) (n : nat) (l : list A) :
  StronglySorted R l ->
  forall a b, In a (firstn n l) -> In b (skipn n l) -> R a b.
Proof.
  intros H. revert n. induction H as [|x l Hs IH Hx]; intros n a b Ha Hb.
  - rewrite firstn_nil in Ha. destruct Ha.
  - destruct n as [|n]; [destruct Ha|]. cbn [firstn skipn] in Ha, Hb.
    destruct Ha as [<-|Ha].
    + rewrite List.Forall_forall in Hx. apply Hx.
      rewrite <- (firstn_skipn n l). apply in_or_app. right. exact Hb.
    + eapply IH; eassumption.
Qed.

(** ** The genre chart *)

Lemma combine_map {A B C : Type} (f : A -> B) (g : A -> C) (l : list A) :
  combine (map f l) (map g l) = map (fun a => (f a, g a)) l.
Proof. induction l as [|a l IH]; [reflexivity|]. cbn. rewrite IH. reflexivity. Qed.

Lemma combine_fst_snd {A B : Type} (l : list (A * B)) :
  combine (map fst l) (map snd l) = l.
Proof.
  induction l as [|[a b] l IH]; [reflexivity|]. cbn. rewrite IH. reflexivity.
Qed.

Lemma groupby_mean_songs `{Mean} (rows : list Song) :
  groupby_mean "track_genre" "popularity" (map row_of_song rows) =
    Ok (groupby_mean_pairs (genre_pairs rows)).
Proof.
  unfold groupby_mean.
  rewrite (getcol_map "track_genre" _ (fun s => VStr (track_genre s))) by reflexivity.
  cbn [mbind result_bind].
  rewrite (traverse_map as_str _ track_genre) by reflexivity.
  cbn [mbind result_bind].
  rewrite (getcol_map "popularity" _ (fun s => VInt (popularity s))) by reflexivity.
  cbn [mbind result_bind].
  rewrite (traverse_map as_int _ popularity) by reflexivity.
  cbn [mbind result_bind]. rewrite combine_map. reflexivity.
Qed.

Lemma create_figure_genre_popularity_table `{Mean} `{SortKind} (rows : list Song) :
  create_figure_genre_popularity {| songs_table := Some rows |} =
    (Ok (genre_figure (top_genres rows)), {| songs_table := Some rows |}).
Proof.
  unfold create_figure_genre_popularity.
  unfold mbind at 1, IO_bind. rewrite db_create_dataframe_table.
  cbn [selected_songs]. unfold mbind at 1, IO_bind, lift.
  rewrite groupby_mean_songs. reflexivity.
Qed.

Lemma bars_genre_figure (top : list (string * spec_float)) :
  bars (genre_figure top) = top.
Proof.
  unfold bars, genre_figure. cbn [map concat ax_artists bars_of_artist].
  rewrite !app_nil_r. apply combine_fst_snd.
Qed.

Lemma group_genre_pairs (g : string) (rows : list Song) :
  group g (genre_pairs rows) =
    map popularity (List.filter (fun s => String.eqb (track_genre s) g) rows).
Proof.
  unfold group, genre_pairs.
  induction rows as [|s rows IH]; [reflexivity|].
  cbn [map List.filter fst]. destruct (String.eqb (track_genre s) g); cbn [map snd];
    rewrite IH; reflexivity.
Qed.

Lemma map_fst_genre_pairs (rows : list Song) :
  map fst (genre_pairs rows) = map track_genre rows.
Proof. unfold genre_pairs. rewrite map_map. reflexivity. Qed.

Lemma map_fst_groupby_mean_pairs `{Mean} (kvs : list (string * Z)) :
  map fst (groupby_mean_pairs kvs) = sorted_unique (map fst kvs).
Proof. unfold groupby_mean_pairs. rewrite map_map. apply map_id. Qed.

Lemma In_groupby_mean_pairs `{Mean} (rows : list Song) (g : string) (h : spec_float) :
  In (g, h) (groupby_mean_pairs (genre_pairs rows)) <->
  In g (map track_genre rows) /\ h = mean_popularity g rows.
Proof.
  unfold groupby_mean_pairs, mean_popularity.
  rewrite in_map_iff, map_fst_genre_pairs. split.
  - intros (k & E & Hk). inversion E; subst.
    apply (proj1 (In_sorted_unique _ _)) in Hk. rewrite group_genre_pairs. auto.
  - intros (Hg & ->). exists g. rewrite group_genre_pairs.
    split; [reflexivity | apply (proj2 (In_sorted_unique _ _)); exact Hg].
Qed.

Lemma NoDup_firstn {A : Type} (n : nat) (l : list A) :
  List.NoDup l -> List.NoDup (firstn n l).
Proof.
  intros H. rewrite <- (firstn_skipn n l) in H.
  exact (NoDup_app_remove_r _ _ H).
Qed.

(** What the chart shows, in terms of the table, whatever the library's
    mean and whatever the sort does with equal values. *)
Lemma top_genres_spec `{Mean} `{SortKind} (rows : list Song) :
  StronglySorted not_after (top_genres rows) /\
  List.NoDup (map fst (top_genres rows)) /\
  (forall g h, In (g, h) (top_genres rows) ->
     In g (map track_genre rows) /\ h = mean_popularity g rows) /\
  length (top_genres rows) =
    Nat.min 10 (length (nodup string_dec (map track_genre rows))) /\
  (forall g, In g (map track_genre rows) -> ~ In g (map fst (top_genres rows)) ->
     forall b, In b (top_genres rows) ->
       sorts_after (snd b) (mean_popularity g rows) = false).
Proof.
  unfold top_genres.
  set (G := groupby_mean_pairs (genre_pairs rows)).
  pose proof (sort_values_desc_sorted G) as Hsorted.
  pose proof (sort_values_desc_perm G) as Hperm.
  split; [apply StronglySorted_firstn; exact Hsorted|].
  split; [|split; [|split]].
  - rewrite <- firstn_map. apply NoDup_firstn.
    apply (Permutation_NoDup (l := map fst G)).
    + apply Permutation_map. symmetry. exact Hperm.
    + unfold G. rewrite map_fst_groupby_mean_pairs.
      apply str_sorted_NoDup, sorted_unique_sorted.
  - intros g h Hin. apply In_groupby_mean_pairs. fold G.
    apply (Permutation_in _ Hperm). exact (firstn_incl _ _ _ Hin).
  - rewrite length_firstn, (Permutation_length Hperm). unfold G.
    rewrite <- (length_map fst), map_fst_groupby_mean_pairs, length_sorted_unique.
    rewrite map_fst_genre_pairs. reflexivity.
  - intros g Hg Hnot b Hb.
    assert (In (g, mean_popularity g rows) (sort_values_desc G)) as Hin.
    { apply (Permutation_in _ (Permutation_sym Hperm)).
      apply In_groupby_mean_pairs. auto. }
    rewrite <- (firstn_skipn 10 (sort_values_desc G)) in Hin.
    apply in_app_or in Hin as [Hin|Hin].
    + exfalso. apply Hnot.
      exact (in_map fst _ _ Hin).
    + exact (StronglySorted_firstn_skipn not_after 10 _ Hsorted _ _ Hb Hin).
Qed.

(** On the two-genre table with equal means the sort sees the same grouped
    series whichever genre comes first in the rows, and the two bars stand
    as the sort kind leaves them. *)
Lemma top_genres_tie `{Mean} `{SortKind} :
  top_genres tie_rows = top_genres (rev tie_rows) /\
  top_genres tie_rows =
    if tie_before "a" "b" then [("a", mean [50]); ("b", mean [50])]
    else [("b", mean [50]); ("a", mean [50])].
Proof.
  split; [reflexivity|].
  change (top_genres tie_rows)
    with (firstn 10 (insert_desc ("a", mean [50]) [("b", mean [50])])).
  cbn [insert_desc fst snd]. rewrite sorts_after_irrefl.
  destruct (tie_before "a" "b"); reflexivity.
Qed.

Lemma spec_top_genres_tie `{Mean} :
  spec_top_genres tie_rows = [("b", mean [50]); ("a", mean [50])] /\
  spec_top_genres (rev tie_rows) = [("a", mean [50]); ("b", mean [50])].
Proof.
  split.
  - change (spec_top_genres tie_rows)
      with (firstn 10 (insert_desc (H := stable_kind) ("b", mean [50]) [("a", mean [50])])).
    cbn [insert_desc fst snd]. rewrite sorts_after_irrefl. reflexivity.
  - change (spec_top_genres (rev tie_rows))
      with (firstn 10 (insert_desc (H := stable_kind) ("a", mean [50]) [("b", mean [50])])).
    cbn [insert_desc fst snd]. rewrite sorts_after_irrefl. reflexivity.
Qed.

(** C3, amended: the bars are the distinct genres of the table, at most ten
    of them and all of them when there are fewer; the height of a bar is the
    number the library's mean returns for the popularity values of the genre
    taken in row order; no bar has a value that sorts after the value of a
    later bar, and no bar sorts after a genre that is left out.  Nothing is
    said about the order of bars of equal value: this holds for every sort
    kind, and first appearance in the table plays no part. *)
Theorem genre_popularity_bars `{Mean} `{SortKind} (rows : list Song) :
  exists fig,
    create_figure_genre_popularity {| songs_table := Some rows |} =
      (Ok fig, {| songs_table := Some rows |}) /\
    StronglySorted not_after (bars fig) /\
    List.NoDup (map fst (bars fig)) /\
    (forall g h, In (g, h) (bars fig) ->
       In g (map track_genre rows) /\ h = mean_popularity g rows) /\
    length (bars fig) = Nat.min 10 (length (nodup string_dec (map track_genre rows))) /\
    (forall g, In g (map track_genre rows) -> ~ In g (map fst (bars fig)) ->
       forall b, In b (bars fig) ->
         sorts_after (snd b) (mean_popularity g rows) = false).
Proof.
  exists (genre_figure (top_genres rows)).
  split; [apply create_figure_genre_popularity_table|].
  rewrite bars_genre_figure. apply top_genres_spec.
Qed.

(** C3 as stated fails on a tie.  Genres "a" and "b" have the same mean;
    first-appearance order puts "b" first when the row of "b" comes first and
    "a" first when the rows are swapped.  The chart is the same for both
    tables, so no mean and no sort kind draws the bars in first-appearance
    order on both. *)
Lemma genre_popularity_tie_order :
  ~ exists (M : Mean) (K : SortKind),
      bars <$> fst (create_figure_genre_popularity tie_db) =
        Ok (spec_top_genres tie_rows) /\
      bars <$> fst (create_figure_genre_popularity {| songs_table := Some (rev tie_rows) |}) =
        Ok (spec_top_genres (rev tie_rows)).
Proof.
  intros (M & K & H1 & H2). unfold tie_db in H1.
  rewrite create_figure_genre_popularity_table in H1, H2.
  cbn [fst fmap result_fmap] in H1, H2.
  rewrite bars_genre_figure in H1, H2.
  rewrite <- (proj1 top_genres_tie) in H2.
  rewrite (proj1 spec_top_genres_tie) in H1.
  rewrite (proj2 spec_top_genres_tie) in H2.
  rewrite H1 in H2. discriminate H2.
Qed.

(** C7: on a table with no rows the genre chart is built without error and
    has no bar. *)
Theorem create_figure_genre_popularity_empty `{Mean} `{SortKind} :
  create_figure_genre_popularity empty_db = (Ok (genre_figure []), empty_db) /\
  bars (genre_figure []) = [].
Proof. split; reflexivity. Qed.

(** ** The chart builders only read *)

Lemma read_only_create_figure_genre_popularity `{Mean} `{SortKind} :
  read_only create_figure_genre_popularity.
Proof.
  unfold create_figure_genre_popularity. apply read_only_bind.
  - apply read_only_db_create_dataframe.
  - intros df. apply read_only_bind; [apply read_only_lift|].
    intros top. apply read_only_ret.
Qed.

Lemma read_only_create_figure_danceability_energy `{Estimator} (genre : string) :
  read_only (create_figure_danceability_energy genre).
Proof.
  unfold create_figure_danceability_energy. apply read_only_bind.
  - apply read_only_db_create_dataframe.
  - intros df. apply read_only_lift.
Qed.

(** ** The danceability figure *)

Lemma traverse_ok {A B : Type} (k : A -> result B) (h : A -> B) (l : list A) :
  (forall a, In a l -> k a = Ok (h a)) -> traverse k l = Ok (map h l).
Proof.
  intros H. rewrite <- (map_id l) at 1. apply traverse_map. exact H.
Qed.

Lemma check_X_y_songs (sel : list Song) :
  check_X_y (map feature_row sel) (map (fun s => VFloat (danceability s)) sel) =
    if forallb finite_song sel
    then match sel with [] => Raise ValueError | _ :: _ => Ok tt end
    else Raise ValueError.
Proof.
  unfold check_X_y.
  assert (forallb (forallb is_finite_number) (map feature_row sel) &&
          forallb is_finite_number (map (fun s => VFloat (danceability s)) sel) =
          forallb finite_song sel) as ->.
  { induction sel as [|s sel IH]; [reflexivity|].
    cbn [map forallb]. rewrite <- IH.
    generalize (forallb (forallb is_finite_number) (map feature_row sel)).
    generalize (forallb is_finite_number (map (fun s => VFloat (danceability s)) sel)).
    intros bY bX. unfold finite_song, feature_row. cbn [forallb].
    destruct (is_finite_number (VFloat (energy s))),
             (is_finite_number (VFloat (acousticness s))),
             (is_finite_number (VFloat (liveness s))),
             (is_finite_number (VFloat (danceability s))), bX, bY;
      reflexivity. }
  destruct (forallb finite_song sel); [|reflexivity].
  destruct sel; reflexivity.
Qed.

Lemma scatter_of_map {A : Type} (ycol : string) (f : A -> Row)
    (cat : A -> string) (xval yval : A -> value) (l : list A) (cc : string * string) :
  (forall a, f a !! "energy_category" = Some (VStr (cat a))) ->
  (forall a, f a !! "energy" = Some (xval a)) ->
  (forall a, f a !! ycol = Some (yval a)) ->
  scatter_of ycol (map f l) cc =
    Ok (Scatter (map xval (List.filter (fun a => String.eqb (cat a) (fst cc)) l))
                (map yval (List.filter (fun a => String.eqb (cat a) (fst cc)) l))
                (fst cc) (snd cc)).
Proof.
  intros Hc Hx Hy. unfold scatter_of.
  rewrite (where_eq_map "energy_category" (fst cc) f (fun a => VStr (cat a)) l Hc).
  cbn [mbind result_bind value_is_str].
  rewrite (getcol_map "energy" f xval _ Hx). cbn [mbind result_bind].
  rewrite (getcol_map ycol f yval _ Hy). reflexivity.
Qed.

(** The builder on a table, case by case: no selected row or a feature that
    is not finite stops in the input validation of the fit; past it, the
    builder returns the figure when the fit returns a model and passes the
    exception on when the fit raises. *)
Lemma create_figure_danceability_energy_table `{Estimator}
    (genre : string) (rows : list Song) :
  create_figure_danceability_energy genre {| songs_table := Some rows |} =
    (if forallb finite_song (selected_songs (Some genre) rows)
     then match selected_songs (Some genre) rows with
          | [] => Raise ValueError
          | _ :: _ =>
              match fit_songs (selected_songs (Some genre) rows) with
              | Ok model =>
                  Ok (danceability_figure model genre (selected_songs (Some genre) rows))
              | Raise e => Raise e
              end
          end
     else Raise ValueError,
     {| songs_table := Some rows |}).
Proof.
  unfold create_figure_danceability_energy.
  unfold mbind at 1, IO_bind. rewrite db_create_dataframe_table.
  unfold lift. f_equal.
  set (sel := selected_songs (Some genre) rows).
  rewrite (traverse_map _ row_of_song feature_row sel) by reflexivity.
  cbn [mbind result_bind].
  rewrite (getcol_map "danceability" _ (fun s => VFloat (danceability s))) by reflexivity.
  cbn [mbind result_bind]. unfold fit_predict. rewrite check_X_y_songs.
  destruct (forallb finite_song sel); [|reflexivity].
  destruct sel as [|s0 sel'] eqn:Esel; [reflexivity|]. rewrite <- Esel.
  cbn [mbind result_bind]. fold (fit_songs sel).
  destruct (fit_songs sel) as [model|e]; [|reflexivity].
  cbn [mbind result_bind].
  rewrite (map_map feature_row). fold (predicted_of model).
  rewrite setcol_map. cbn [mbind result_bind].
  rewrite (getcol_map "energy" _ (fun s => VFloat (energy s))) by reflexivity.
  cbn [mbind result_bind].
  rewrite (traverse_map dance_energy_category _ (fun s => category_of (energy s)))
    by (intros; apply dance_energy_category_of).
  cbn [mbind result_bind]. rewrite map_map, setcol_map. cbn [mbind result_bind].
  rewrite (traverse_ok (scatter_of "danceability" _)
             (scatter_series (fun s => VFloat (danceability s)) sel)).
  2:{ intros cc _.
      apply (scatter_of_map "danceability" _ (fun s => category_of (energy s))
               (fun s => VFloat (energy s)) (fun s => VFloat (danceability s)));
        reflexivity. }
  cbn [mbind result_bind].
  rewrite (traverse_ok (scatter_of "predicted_danceability" _)
             (scatter_series (predicted_of model) sel)).
  2:{ intros cc _.
      apply (scatter_of_map "predicted_danceability" _ (fun s => category_of (energy s))
               (fun s => VFloat (energy s)) (predicted_of model));
        reflexivity. }
  reflexivity.
Qed.


(** Both outcomes of the fit occur on the three sample rows: an estimator
    that returns a model gives the figure, one that raises gives its
    exception. *)
Example create_figure_danceability_energy_three_rows :
  (exists fig,
     create_figure_danceability_energy (H := constant_model) "pop" sample_db =
       (Ok fig, sample_db)) /\
  create_figure_danceability_energy (H := failing_model) "pop" sample_db =
    (Raise ValueError, sample_db).
Proof. split; [eexists|]; reflexivity. Qed.

(** With no selected row the fit refuses its training matrix, whatever the
    estimator. *)
Lemma create_figure_danceability_energy_nothing_selected `{Estimator}
    (genre : string) (rows : list Song) :
  selected_songs (Some genre) rows = [] ->
  create_figure_danceability_energy genre {| songs_table := Some rows |} =
    (Raise ValueError, {| songs_table := Some rows |}).
Proof.
  intros E. rewrite create_figure_danceability_energy_table, E. reflexivity.
Qed.


(** ** The group keys do not depend on the order of the rows *)

(** A strictly ascending list is determined by its entries. *)
Lemma str_sorted_ext (l1 l2 : list string) :
  StronglySorted str_lt l1 -> StronglySorted str_lt l2 ->
  (forall x, In x l1 <-> In x l2) -> l1 = l2.
Proof.
  intros H1. revert l2.
  induction H1 as [|h1 t1 Hs1 IH Hh1]; intros l2 H2 Hin.
  - destruct l2 as [|h2 t2]; [reflexivity|].
    destruct (proj2 (Hin h2) (or_introl eq_refl)).
  - destruct H2 as [|h2 t2 Hs2 Hh2].
    + destruct (proj1 (Hin h1) (or_introl eq_refl)).
    + rewrite List.Forall_forall in Hh1, Hh2.
      assert (h1 = h2) as ->.
      { destruct (proj1 (Hin h1) (or_introl eq_refl)) as [E|Hin1]; [congruence|].
        destruct (proj2 (Hin h2) (or_introl eq_refl)) as [E|Hin2]; [congruence|].
        exfalso. apply (str_lt_irrefl h1).
        exact (str_lt_trans _ _ _ (Hh1 _ Hin2) (Hh2 _ Hin1)). }
      f_equal. apply IH; [exact Hs2|].
      intros x. split; intros Hx.
      * destruct (proj1 (Hin x) (or_intror Hx)) as [E|Hx']; [|exact Hx'].
        subst. exfalso. exact (str_lt_irrefl _ (Hh1 _ Hx)).
      * destruct (proj2 (Hin x) (or_intror Hx)) as [E|Hx']; [|exact Hx'].
        subst. exfalso. exact (str_lt_irrefl _ (Hh2 _ Hx)).
Qed.

Lemma sorted_unique_perm (l l' : list string) :
  Permutation l l' -> sorted_unique l = sorted_unique l'.
Proof.
  intros Hp. apply str_sorted_ext; try apply sorted_unique_sorted.
  intros x. rewrite !In_sorted_unique.
  split; apply Permutation_in; [exact Hp | symmetry; exact Hp].
Qed.

(** ** Literals and examples *)

(** The three thresholds are the binary64 numbers the hexadecimal forms of
    the float literals denote. *)
Lemma float_literals :
  Prim2SF 0x1.999999999999ap-2%float = f0_4 /\
  Prim2SF 0x1.6666666666666p-1%float = f0_7 /\
  Prim2SF 0x1p-1%float = f0_5.
Proof. repeat split; vm_compute; reflexivity. Qed.

(** Slow and quiet is Relaxing: rule 2 holds for tempo 60 and energy 0.1. *)
Example map_mood_quiet : map_mood (row_of_song quiet) = Ok "Relaxing".
Proof. reflexivity. Qed.

Example map_mood_calm : map_mood (row_of_song calm) = Ok "Relaxing".
Proof. reflexivity. Qed.

(** Values outside the unit interval are categorised by the same two
    thresholds; a string is not comparable with a float. *)
Example dance_energy_category_out_of_range :
  dance_energy_category (VFloat f130) = Ok "High" /\
  dance_energy_category (VFloat (SFopp f0_5)) = Ok "Low" /\
  dance_energy_category (VFloat (S754_infinity true)) = Ok "Low" /\
  dance_energy_category (VInt 1) = Ok "High" /\
  dance_energy_category (VInt 0) = Ok "Low" /\
  dance_energy_category (VStr "0.5") = Raise TypeError.
Proof. repeat split. Qed.

(** A query on a database without the songs table is an error, not an empty
    frame, and the genre chart passes the error on. *)
Example create_figure_genre_popularity_no_table `{Mean} `{SortKind} :
  create_figure_genre_popularity {| songs_table := None |} =
    (Raise OperationalError, {| songs_table := None |}).
Proof. reflexivity. Qed.

(** Either order of two bars of equal value is the result of some sort
    kind: one that keeps the grouped series' order, one that reverses it. *)
Example sort_values_desc_tie_either_way :
  sort_values_desc (H := stable_kind)
    [("a", float_of_small 50); ("b", float_of_small 50)] =
    [("a", float_of_small 50); ("b", float_of_small 50)] /\
  sort_values_desc (H := reversing_kind)
    [("a", float_of_small 50); ("b", float_of_small 50)] =
    [("b", float_of_small 50); ("a", float_of_small 50)].
Proof. split; reflexivity. Qed.

(** On the tie table each group holds one value, of which
    [first_value_mean] is the mean; the two bars come in either order,
    according to the sort kind. *)
Example create_figure_genre_popularity_tie_either_way :
  bars <$> fst (@create_figure_genre_popularity first_value_mean stable_kind tie_db) =
    Ok [("a", float_of_small 50); ("b", float_of_small 50)] /\
  bars <$> fst (@create_figure_genre_popularity first_value_mean reversing_kind tie_db) =
    Ok [("b", float_of_small 50); ("a", float_of_small 50)].
Proof. split; reflexivity. Qed.

(** NaN goes last and larger values first, whatever the sort kind. *)
Example sort_values_desc_nan_last `{SortKind} :
  sort_values_desc
    [("n", S754_nan); ("a", float_of_small 1); ("b", float_of_small 2)] =
    [("b", float_of_small 2); ("a", float_of_small 1); ("n", S754_nan)].
Proof. reflexivity. Qed.

(** ** The genre list *)

Lemma In_first_appearance (l : list string) (x : string) :
  In x (first_appearance l) <-> In x l.
Proof.
  induction l as [|k t IH]; [reflexivity|].
  cbn [first_appearance]. simpl. rewrite filter_In, IH, Bool.negb_true_iff, String.eqb_neq.
  destruct (string_dec x k) as [->|Hne]; intuition.
Qed.

Lemma NoDup_first_appearance (l : list string) : List.NoDup (first_appearance l).
Proof.
  induction l as [|k t IH]; cbn [first_appearance]; constructor.
  - rewrite filter_In, Bool.negb_true_iff, String.eqb_neq. intros [_ H]. congruence.
  - apply List.NoDup_filter. exact IH.
Qed.

(** X1: on a database with the songs table, [db_get_genres] answers with
    every genre some record carries, each exactly once, and leaves the
    database as it was. *)
Theorem db_get_genres_distinct (rows : list Song) :
  exists genres,
    db_get_genres {| songs_table := Some rows |} =
      (Ok genres, {| songs_table := Some rows |}) /\
    List.NoDup genres /\
    (forall g, In g genres <-> exists s, In s rows /\ track_genre s = g).
Proof.
  exists (first_appearance (map track_genre rows)).
  split; [reflexivity|]. split; [apply NoDup_first_appearance|].
  intros g. rewrite In_first_appearance, in_map_iff.
  split; intros (s & H1 & H2); exists s; auto.
Qed.

(** X2: a genre the home page offers always selects at least one row. *)
Theorem home_genre_selects_rows
    (rows : list Song) (genres : list string) (message g : string) :
  fst (home {| songs_table := Some rows |}) = Ok (HomePage genres message) ->
  In g genres ->
  exists r df,
    db_create_dataframe (Some g) {| songs_table := Some rows |} =
      (Ok (r :: df), {| songs_table := Some rows |}).
Proof.
  intros Hhome Hg. cbn in Hhome. inversion Hhome; subst. clear Hhome.
  apply In_first_appearance, in_map_iff in Hg as (s & Hs & Hin).
  rewrite db_create_dataframe_table. unfold selected_songs.
  destruct (String.eqb g "").
  - destruct rows as [|s0 rows]; [destruct Hin|]. cbn [map]. eauto.
  - assert (In s (List.filter (fun s => String.eqb (track_genre s) g) rows)) as Hf
      by (apply filter_In; split; [exact Hin | apply String.eqb_eq; exact Hs]).
    destruct (List.filter _ rows) as [|s0 l]; [destruct Hf|]. cbn [map]. eauto.
Qed.

Lemma home_genre_selects_rows_witness :
  exists r df, db_create_dataframe (Some "ambient") sample_db = (Ok (r :: df), sample_db).
Proof.
  apply (home_genre_selects_rows [bright; calm; quiet] ["pop"; "ambient"]
           "Please select a genre." "ambient").
  - reflexivity.
  - right. left. reflexivity.
Defined.

(** With no genre in the session [submit_mood] stores the mood and
    redirects without querying the database. *)
Lemma submit_mood_without_genre
    (mood : string) (session : gmap string string) (db : Database) :
  session !! "genre" = None ->
  submit_mood mood session db = (Ok (Redirect "home", <["mood" := mood]> session), db).
Proof.
  intros Hg. unfold submit_mood.
  rewrite lookup_insert_ne by discriminate. rewrite Hg. reflexivity.
Qed.

(** X3: without the songs table every operation that queries it raises
    OperationalError, returns no partial result and leaves the database as
    it was; [submit_mood] does so only with a genre in the session: without
    one it queries nothing and redirects to the home page. *)
Theorem missing_table_raises `{Mean} `{SortKind} `{Estimator}
    (genre : option string) (g mood : string) (session : gmap string string) :
  db_create_dataframe genre {| songs_table := None |} =
    (Raise OperationalError, {| songs_table := None |}) /\
  db_get_genres {| songs_table := None |} =
    (Raise OperationalError, {| songs_table := None |}) /\
  home {| songs_table := None |} = (Raise OperationalError, {| songs_table := None |}) /\
  create_figure_genre_popularity {| songs_table := None |} =
    (Raise OperationalError, {| songs_table := None |}) /\
  create_figure_danceability_energy g {| songs_table := None |} =
    (Raise OperationalError, {| songs_table := None |}) /\
  submit_mood mood (<["genre" := g]> session) {| songs_table := None |} =
    (Raise OperationalError, {| songs_table := None |}) /\
  submit_mood mood (delete "genre" session) {| songs_table := None |} =
    (Ok (Redirect "home", <["mood" := mood]> (delete "genre" session)),
     {| songs_table := None |}).
Proof.
  split; [apply db_create_dataframe_no_table|].
  split; [reflexivity|]. split; [reflexivity|]. split; [reflexivity|].
  split; [|split].
  - unfold create_figure_danceability_energy. unfold mbind at 1, IO_bind.
    rewrite db_create_dataframe_no_table. reflexivity.
  - unfold submit_mood. rewrite lookup_insert_ne by discriminate.
    rewrite lookup_insert_eq. unfold mbind at 1, IO_bind.
    rewrite db_create_dataframe_no_table. reflexivity.
  - apply submit_mood_without_genre, lookup_delete_eq.
Qed.

(** ** Choosing a genre, then a mood *)

Lemma submit_mood_table (mood genre : string) (session : gmap string string)
    (rows : list Song) :
  session !! "genre" = Some genre ->
  submit_mood mood session {| songs_table := Some rows |} =
    (Ok (RenderMood genre mood
           (map shown_row
              (List.filter (fun s => String.eqb (mood_of s) mood)
                 (selected_songs (Some genre) rows))),
         <["mood" := mood]> session),
     {| songs_table := Some rows |}).
Proof.
  intros Hg. unfold submit_mood.
  rewrite lookup_insert_ne by discriminate. rewrite Hg.
  unfold mbind at 1, IO_bind. rewrite db_create_dataframe_table.
  unfold mbind at 1, IO_bind, lift. rewrite mood_table_songs. reflexivity.
Qed.

(** X4: after [submit_genre] with a non-empty genre, which redirects to that
    genre's page, [submit_mood] lists exactly the records of the table that
    carry this genre and are classified with the chosen mood. *)
Theorem submit_genre_then_mood
    (g mood : string) (session : gmap string string) (rows : list Song) :
  g <> "" ->
  fst (submit_genre g session) = RedirectGenre g /\
  exists songs,
    fst (submit_mood mood (snd (submit_genre g session)) {| songs_table := Some rows |}) =
      Ok (RenderMood g mood (map shown_row songs),
          <["mood" := mood]> (<["genre" := g]> session)) /\
    (forall s, In s songs <->
               In s rows /\ track_genre s = g /\ map_mood (row_of_song s) = Ok mood).
Proof.
  intros Hg. apply String.eqb_neq in Hg.
  unfold submit_genre, truthy. rewrite Hg. cbn [negb fst snd].
  split; [reflexivity|].
  eexists. rewrite (submit_mood_table mood g) by apply lookup_insert_eq.
  cbn [fst selected_songs]. rewrite Hg. split; [reflexivity|].
  intros s. rewrite !filter_In, !String.eqb_eq, map_mood_of.
  split; [intros [[H1 H2] H3] | intros (H1 & H2 & H3)]; repeat split; congruence.
Qed.

Lemma submit_genre_then_mood_witness :
  fst (submit_genre "pop" ∅) = RedirectGenre "pop".
Proof.
  destruct (submit_genre_then_mood "pop" "Happy" ∅ [bright; calm; quiet]) as [H _].
  - discriminate.
  - exact H.
Defined.

(** X5: [submit_genre] with an empty genre redirects to the home page but
    has already stored the empty genre in the session; a [submit_mood] that
    follows does not redirect: it lists the records of that mood from the
    whole table, whatever their genre. *)
Theorem submit_empty_genre_then_mood
    (mood : string) (session : gmap string string) (rows : list Song) :
  fst (submit_genre "" session) = RedirectHome /\
  snd (submit_genre "" session) !! "genre" = Some "" /\
  exists songs,
    fst (submit_mood mood (snd (submit_genre "" session)) {| songs_table := Some rows |}) =
      Ok (RenderMood "" mood (map shown_row songs),
          <["mood" := mood]> (<["genre" := ""]> session)) /\
    (forall s, In s songs <-> In s rows /\ map_mood (row_of_song s) = Ok mood).
Proof.
  unfold submit_genre, truthy. cbn [String.eqb negb fst snd].
  split; [reflexivity|]. split; [apply lookup_insert_eq|].
  eexists. rewrite (submit_mood_table mood "") by apply lookup_insert_eq.
  cbn [fst selected_songs String.eqb]. split; [reflexivity|].
  intros s. rewrite filter_In, String.eqb_eq, map_mood_of.
  split; intros [H1 H2]; split; congruence.
Qed.

(** ** Moods partition a table *)

Lemma mood_of_label (s : Song) : In (mood_of s) mood_labels.
Proof.
  unfold mood_of. rewrite first_match_cases.
  destruct (rule_happy (features_of s)), (rule_relaxing (features_of s)),
           (rule_workout (features_of s)), (rule_party (features_of s));
    simpl; auto 6.
Qed.

Lemma table_size_filter (mood : string) (songs : list Song) :
  table_size mood songs =
    length (List.filter (fun s => String.eqb (mood_of s) mood) songs).
Proof. unfold table_size. rewrite mood_table_songs. apply length_map. Qed.

(** X6: the five mood tables of a collection share its records out: their
    sizes add up to the number of records, and a mood that is none of the
    five labels lists nothing. *)
Theorem mood_tables_partition (songs : list Song) :
  (table_size "Happy" songs + table_size "Relaxing" songs +
   table_size "Workout" songs + table_size "Party" songs +
   table_size "Other" songs = length songs)%nat /\
  (forall mood, ~ In mood mood_labels ->
     mood_table mood (map row_of_song songs) = Ok []).
Proof.
  split.
  - rewrite !table_size_filter.
    induction songs as [|s songs IH]; [reflexivity|].
    cbn [List.filter length].
    destruct (mood_of_label s) as [E|[E|[E|[E|[E|[]]]]]]; rewrite <- E;
      cbn [String.eqb Ascii.eqb Bool.eqb length]; lia.
  - intros mood Hm. rewrite mood_table_songs.
    replace (List.filter _ songs) with (@nil Song); [reflexivity|].
    symmetry. induction songs as [|s songs IH]; [reflexivity|].
    cbn [List.filter]. destruct (String.eqb_spec (mood_of s) mood) as [E|_]; [|exact IH].
    exfalso. apply Hm. rewrite <- E. apply mood_of_label.
Qed.

(** ** Energy against the two label functions *)

Lemma compare_cont_lt_trans (m a b : positive) :
  PosDef.Pos.compare_cont Eq m a = Lt -> (a < b)%positive ->
  PosDef.Pos.compare_cont Eq m b = Lt.
Proof. exact (Pos.lt_trans m a b). Qed.

Lemma SFcompare_lt_half (e : spec_float) :
  SFcompare e f0_5 = Some Lt -> SFcompare e f0_7 = Some Lt.
Proof.
  destruct e as [sg | sg | | sg m x]; cbn [SFcompare f0_5 f0_7]; try discriminate;
    try (destruct sg; intros; try discriminate; reflexivity).
  destruct sg; [reflexivity|].
  destruct (x ?= -53) eqn:E; try discriminate; [|reflexivity].
  intros H. f_equal.
  apply (compare_cont_lt_trans m 4503599627370496 6305039478318694).
  - congruence.
  - vm_compute. reflexivity.
Qed.

(** Above 0.7 is not below 0.5, for floats and for integers. *)
Lemma gt_threshold_not_lt_half (v : value) :
  holds (py_gt v (VFloat f0_7)) = true -> holds (py_lt v (VFloat f0_5)) = false.
Proof.
  destruct v as [z | e | s]; [| |discriminate].
  - cbn [holds py_gt py_lt py_compare mbind result_bind SFcompare_Z f0_5 f0_7 option_map].
    change (0 <=? -53) with false. change (- -53) with 53.
    change (2 ^ 53) with 9007199254740992.
    destruct (Z.compare_spec 6305039478318694 (z * 9007199254740992));
      cbn [CompOpp]; try discriminate; intros _.
    destruct (Z.compare_spec 4503599627370496 (z * 9007199254740992));
      cbn [CompOpp]; try reflexivity; lia.
  - cbn [holds py_gt py_lt py_compare mbind result_bind].
    destruct (SFcompare e f0_5) as [[]|] eqn:E; try reflexivity.
    rewrite (SFcompare_lt_half e E). discriminate.
Qed.

Lemma category_of_above (e : spec_float) :
  holds (py_gt (VFloat e) (VFloat f0_7)) = true -> category_of e = "High".
Proof.
  cbn [holds py_gt py_compare mbind result_bind]. intros H.
  destruct (SFcompare e f0_7) as [[]|] eqn:E7; try discriminate.
  assert (is_nan (VFloat e) = false) as Hnan
    by (destruct e; try reflexivity; discriminate).
  destruct (compare_thresholds (VFloat e) eq_refl Hnan) as (c4 & c7 & H4 & H7 & Hc).
  cbn [py_compare] in H4, H7. unfold category_of, SFltb.
  injection H4 as H4. injection H7 as H7. rewrite H4, H7.
  rewrite E7 in H7. injection H7 as <-. rewrite Hc by discriminate. reflexivity.
Qed.

Lemma category_of_below_half (e : spec_float) :
  holds (py_lt (VFloat e) (VFloat f0_5)) = true ->
  category_of e = "Low" \/ category_of e = "Medium".
Proof.
  cbn [holds py_lt py_compare mbind result_bind]. intros H.
  destruct (SFcompare e f0_5) as [[]|] eqn:E5; try discriminate.
  unfold category_of, SFltb. rewrite (SFcompare_lt_half e E5).
  destruct (SFcompare e f0_4) as [[]|]; auto.
Qed.

Lemma mood_of_rules (s : Song) :
  (mood_of s = "Happy" -> rule_happy (features_of s) = true) /\
  (mood_of s = "Relaxing" -> rule_relaxing (features_of s) = true) /\
  (mood_of s = "Workout" -> rule_workout (features_of s) = true) /\
  (mood_of s = "Party" -> rule_party (features_of s) = true).
Proof.
  unfold mood_of. rewrite first_match_cases.
  destruct (rule_happy (features_of s)), (rule_relaxing (features_of s)),
           (rule_workout (features_of s)), (rule_party (features_of s));
    repeat split; intros; try reflexivity; discriminate.
Qed.

(** X7: in the table [submit_mood] builds, every record listed under Happy,
    Workout or Party shows energy High, every record listed under Party
    shows danceability High as well, and a record listed under Relaxing
    shows energy Low or Medium. *)
Theorem mood_table_energy_labels
    (mood : string) (songs : list Song) (t : list (gmap string value))
    (r : gmap string value) :
  mood_table mood (map row_of_song songs) = Ok t -> In r t ->
  (In mood ["Happy"; "Workout"; "Party"] -> r !! "energy" = Some (VStr "High")) /\
  (mood = "Party" -> r !! "danceability" = Some (VStr "High")) /\
  (mood = "Relaxing" ->
   r !! "energy" = Some (VStr "Low") \/ r !! "energy" = Some (VStr "Medium")).
Proof.
  rewrite mood_table_songs. intros Ht Hr. injection Ht as <-.
  apply in_map_iff in Hr as (s & <- & Hs).
  apply filter_In in Hs as [_ Hm]. apply String.eqb_eq in Hm.
  destruct (mood_of_rules s) as (Hh & Hr & Hw & Hp).
  change (shown_row s !! "energy") with (Some (VStr (category_of (energy s)))).
  change (shown_row s !! "danceability") with (Some (VStr (category_of (danceability s)))).
  split; [|split].
  - intros [E|[E|[E|[]]]]; subst mood; f_equal; f_equal; apply category_of_above.
    + specialize (Hh (eq_sym E)). unfold rule_happy in Hh.
      apply andb_prop in Hh as [_ Hh]. exact Hh.
    + specialize (Hw (eq_sym E)). unfold rule_workout in Hw.
      apply andb_prop in Hw as [_ Hw]. exact Hw.
    + specialize (Hp (eq_sym E)). unfold rule_party in Hp.
      apply andb_prop in Hp as [_ Hp]. exact Hp.
  - intros ->. f_equal. f_equal. apply category_of_above.
    specialize (Hp Hm). unfold rule_party in Hp.
    apply andb_prop in Hp as [Hp _]. exact Hp.
  - intros ->. specialize (Hr Hm). unfold rule_relaxing in Hr.
    apply andb_prop in Hr as [_ Hr].
    destruct (category_of_below_half _ Hr) as [E|E]; rewrite E; auto.
Qed.

Lemma mood_table_energy_labels_witness :
  shown_row bright !! "energy" = Some (VStr "High").
Proof.
  destruct (mood_table_energy_labels "Happy" [bright; calm; quiet]
              [shown_row bright] (shown_row bright)) as (H & _).
  - reflexivity.
  - left. reflexivity.
  - apply H. left. reflexivity.
Defined.

(** ** What the rules say about energy *)

(** X8: on a record with numeric features, Relaxing is returned exactly when
    rule 2 holds, rule 1 never pre-empting it; an energy neither above 0.7
    nor below 0.5 always gives Other; and Happy, Workout and Party are only
    returned for an energy above 0.7. *)
Theorem map_mood_energy_bands (row : Row) (x : features) :
  numeric_features x = true -> has_features row x ->
  (map_mood row = Ok "Relaxing" <-> rule_relaxing x = true) /\
  (holds (py_gt (f_energy x) (VFloat f0_7)) = false ->
   holds (py_lt (f_energy x) (VFloat f0_5)) = false ->
   map_mood row = Ok "Other") /\
  (In (map_mood row) [Ok "Happy"; Ok "Workout"; Ok "Party"] ->
   holds (py_gt (f_energy x) (VFloat f0_7)) = true).
Proof.
  intros Hn Hf. rewrite (map_mood_numeric row x Hn Hf), first_match_cases.
  unfold rule_happy, rule_relaxing, rule_workout, rule_party.
  pose proof (gt_threshold_not_lt_half (f_energy x)) as He.
  revert He.
  generalize (holds (py_gt (f_energy x) (VFloat f0_7))); intros e7.
  generalize (holds (py_lt (f_energy x) (VFloat f0_5))); intros e5.
  generalize (holds (py_gt (f_valence x) (VFloat f0_7))); intros b1.
  generalize (holds (py_lt (f_tempo x) (VInt 90))); intros b3.
  generalize (holds (py_gt (f_tempo x) (VInt 120))); intros b5.
  generalize (holds (py_gt (f_danceability x) (VFloat f0_7))); intros b6.
  intros He. split; [|split].
  - destruct e7; [rewrite (He eq_refl)|]; destruct b1, b3, e5, b5, b6; cbn;
      split; intros; try reflexivity; discriminate.
  - intros -> ->. destruct b1, b3, b5, b6; reflexivity.
  - destruct e7; [reflexivity|].
    destruct b1, b3, e5, b5, b6; cbn; intros [E|[E|[E|[]]]]; discriminate.
Qed.

Lemma map_mood_energy_bands_witness :
  map_mood (row_of_song calm) = Ok "Relaxing".
Proof.
  destruct (map_mood_energy_bands (row_of_song calm) (features_of calm)) as ([_ H] & _).
  - reflexivity.
  - apply has_features_row_of_song.
  - apply H. reflexivity.
Defined.

(** ** Which columns the classifier reads *)

(** X9: when valence is not above 0.7, tempo neither below 90 nor above
    120 and danceability not above 0.7, the right operands are never
    evaluated: the answer is Other whether the energy column is a number, a
    string or missing.  Valence is always read: without it the classifier
    raises KeyError, and on a string it raises TypeError. *)
Theorem map_mood_column_reads (row : Row) (v t d : value) (s : string) :
  row !! "valence" = Some v -> row !! "tempo" = Some t ->
  row !! "danceability" = Some d ->
  is_number v = true -> is_number t = true -> is_number d = true ->
  holds (py_gt v (VFloat f0_7)) = false ->
  holds (py_lt t (VInt 90)) = false -> holds (py_gt t (VInt 120)) = false ->
  holds (py_gt d (VFloat f0_7)) = false ->
  map_mood row = Ok "Other" /\
  map_mood (delete "energy" row) = Ok "Other" /\
  map_mood (<["energy" := VStr s]> row) = Ok "Other" /\
  map_mood (delete "valence" row) = Raise (KeyError "valence") /\
  map_mood (<["valence" := VStr s]> row) = Raise TypeError.
Proof.
  intros Hv Ht Hd Nv Nt Nd Cv Ct1 Ct2 Cd.
  assert (forall row' : Row,
            row' !! "valence" = Some v -> row' !! "tempo" = Some t ->
            row' !! "danceability" = Some d -> map_mood row' = Ok "Other") as Hother.
  { intros row' Hv' Ht' Hd'. unfold map_mood, getitem. rewrite Hv', Ht', Hd'.
    cbn [mbind result_bind].
    rewrite (py_gt_holds v (VFloat f0_7) Nv eq_refl), Cv.
    rewrite (py_lt_holds t (VInt 90) Nt eq_refl), Ct1.
    rewrite (py_gt_holds t (VInt 120) Nt eq_refl), Ct2.
    rewrite (py_gt_holds d (VFloat f0_7) Nd eq_refl), Cd. reflexivity. }
  split; [apply Hother; assumption|].
  split; [apply Hother; rewrite lookup_delete_ne by discriminate; assumption|].
  split; [apply Hother; rewrite lookup_insert_ne by discriminate; assumption|].
  split.
  - unfold map_mood, getitem. rewrite lookup_delete_eq. reflexivity.
  - unfold map_mood, getitem. rewrite lookup_insert_eq. reflexivity.
Qed.

Lemma map_mood_column_reads_witness :
  map_mood (delete "energy" (row_of_song plain)) = Ok "Other".
Proof.
  refine (proj1 (proj2 (map_mood_column_reads (row_of_song plain)
            (VFloat f0_2) (VFloat f100) (VFloat f0_2) "High" _ _ _ _ _ _ _ _ _ _)));
    reflexivity.
Defined.

(** X10: the categoriser raises TypeError on every string and on nothing
    else; an integer is never Medium (Low up to 0, High from 1), and a float
    gets the label its two comparisons select. *)
Theorem dance_energy_category_domain (v : value) :
  match v with
  | VStr _ => dance_energy_category v = Raise TypeError
  | VInt z => dance_energy_category v = Ok (if z <=? 0 then "Low" else "High")
  | VFloat f => dance_energy_category v = Ok (category_of f)
  end.
Proof.
  destruct v as [z | f | s]; [|apply dance_energy_category_of|reflexivity].
  unfold dance_energy_category, py_lt.
  cbn [py_compare mbind result_bind SFcompare_Z f0_4 f0_7 option_map].
  change (0 <=? -54) with false. change (0 <=? -53) with false.
  change (- -54) with 54. change (- -53) with 53.
  change (2 ^ 54) with 18014398509481984. change (2 ^ 53) with 9007199254740992.
  destruct (Z.leb_spec z 0);
    destruct (Z.compare_spec 7205759403792794 (z * 18014398509481984));
    cbn [CompOpp]; try reflexivity; try lia;
    destruct (Z.compare_spec 6305039478318694 (z * 9007199254740992));
    cbn [CompOpp]; try reflexivity; lia.
Qed.

(** ** Points of the danceability figure *)

Lemma category_of_label (f : spec_float) : In (category_of f) category_labels.
Proof.
  unfold category_of. destruct (SFltb f f0_4), (SFltb f f0_7); simpl; auto.
Qed.

Lemma in_category_partition (sel : list Song) :
  (length (List.filter (in_category "Low") sel) +
   length (List.filter (in_category "Medium") sel) +
   length (List.filter (in_category "High") sel) = length sel)%nat.
Proof.
  induction sel as [|s sel IH]; [reflexivity|].
  cbn [List.filter length].
  change (in_category "Low" s) with (String.eqb (category_of (energy s)) "Low").
  change (in_category "Medium" s) with (String.eqb (category_of (energy s)) "Medium").
  change (in_category "High" s) with (String.eqb (category_of (energy s)) "High").
  destruct (category_of_label (energy s)) as [E|[E|[E|[]]]]; rewrite <- E;
    cbn [String.eqb Ascii.eqb Bool.eqb length]; lia.
Qed.

Lemma scatter_series_points (yval : Song -> value) (sel : list Song) (cc : string * string) :
  points (scatter_series yval sel cc) = length (List.filter (in_category (fst cc)) sel).
Proof. unfold scatter_series, points. apply length_map. Qed.

Lemma scatter_series_ok (yval : Song -> value) (sel : list Song) (cc : string * string) :
  series_ok (scatter_series yval sel cc).
Proof.
  unfold scatter_series, series_ok. split; [rewrite !length_map; reflexivity|].
  apply List.Forall_forall. intros x Hx.
  apply in_map_iff in Hx as (s & <- & Hs). apply filter_In in Hs as [_ Hc].
  unfold in_category in Hc. apply String.eqb_eq in Hc.
  rewrite dance_energy_category_of, Hc. reflexivity.
Qed.

(** X13: when the danceability figure is built, each of its two axes plots
    every selected record exactly once: the point counts of the series Low,
    Medium and High add up to the number of records; each series has as many
    y as x values, and the energy of each of its points is categorised with
    the label of the series. *)
Theorem danceability_points_partition `{Estimator}
    (genre : string) (rows : list Song) (fig : Figure) :
  fst (create_figure_danceability_energy genre {| songs_table := Some rows |}) = Ok fig ->
  length fig = 2%nat /\
  Forall (fun ax => list_sum (map points (ax_artists ax)) =
                    length (selected_songs (Some genre) rows)) fig /\
  Forall (fun ax => Forall series_ok (ax_artists ax)) fig.
Proof.
  rewrite create_figure_danceability_energy_table. cbn [fst].
  generalize (selected_songs (Some genre) rows). intros sel.
  destruct (forallb finite_song sel); [|discriminate].
  destruct sel as [|s0 sel']; [discriminate|].
  set (sel := s0 :: sel').
  destruct (fit_songs sel) as [model|e]; [|discriminate].
  intros Hfig. injection Hfig as <-.
  unfold danceability_figure, colors.
  split; [reflexivity|]. split.
  - apply List.Forall_cons; [|apply List.Forall_cons; [|apply List.Forall_nil]].
    all: unfold list_sum; cbn [ax_artists map fold_right].
    all: rewrite !scatter_series_points; cbn [fst].
    all: rewrite <- (in_category_partition sel); lia.
  - apply List.Forall_cons; [|apply List.Forall_cons; [|apply List.Forall_nil]].
    all: cbn [ax_artists map].
    all: apply List.Forall_cons; [|apply List.Forall_cons; [|apply List.Forall_cons; [|apply List.Forall_nil]]].
    all: apply scatter_series_ok.
Qed.

Lemma danceability_points_partition_witness :
  length (danceability_figure (fun _ => S754_zero false) "pop" [bright]) = 2%nat.
Proof.
  refine (proj1 (danceability_points_partition (H := constant_model) "pop"
                   [bright; calm; quiet] _ _)).
  reflexivity.
Defined.

(** ** The import script *)

Lemma same_key_spec (a b : Song) :
  same_key a b = true <-> subset_key a = subset_key b.
Proof.
  unfold same_key, subset_key.
  rewrite andb_true_iff, !String.eqb_eq. split; [intros [-> ->]; reflexivity|].
  intros E. injection E as -> ->. auto.
Qed.

Lemma In_dropna (csv : list CsvRow) (s : Song) :
  In s (dropna csv) <-> exists r, In r csv /\ complete_row r = Some s.
Proof.
  unfold dropna. induction csv as [|r csv IH]; cbn [omap list_omap].
  - split; [intros [] | intros (r & [] & _)].
  - destruct (complete_row r) as [s'|] eqn:E; cbn [In]; rewrite IH; split.
    + intros [<-|(r' & H1 & H2)]; [exists r | exists r']; auto.
    + intros (r' & [<-|H1] & H2); [left; congruence | right; exists r'; auto].
    + intros (r' & H1 & H2). exists r'; auto.
    + intros (r' & [<-|H1] & H2); [congruence | exists r'; auto].
Qed.

Lemma notna_no_nan (c : option spec_float) (f : spec_float) :
  notna c = Some f -> is_nan (VFloat f) = false.
Proof.
  destruct c as [[]|]; cbn [notna]; intros E; try discriminate;
    injection E as <-; reflexivity.
Qed.

Lemma complete_row_no_nan (r : CsvRow) (s : Song) :
  complete_row r = Some s -> no_nan s = true.
Proof.
  unfold complete_row. intros E.
  destruct (c_track_name r); [|discriminate]. destruct (c_artists r); [|discriminate].
  destruct (c_track_genre r); [|discriminate]. destruct (c_popularity r); [|discriminate].
  cbn [mbind option_bind] in E.
  destruct (notna (c_danceability r)) eqn:E1; [|discriminate].
  destruct (notna (c_energy r)) eqn:E2; [|discriminate].
  destruct (notna (c_valence r)) eqn:E3; [|discriminate].
  destruct (notna (c_tempo r)) eqn:E4; [|discriminate].
  destruct (notna (c_acousticness r)) eqn:E5; [|discriminate].
  destruct (notna (c_liveness r)) eqn:E6; [|discriminate].
  cbn [mbind option_bind] in E.
  destruct (forallb cell_present (c_others r)); [|discriminate].
  injection E as <-. unfold no_nan.
  cbn [danceability energy valence tempo acousticness liveness].
  rewrite (notna_no_nan _ _ E1), (notna_no_nan _ _ E2), (notna_no_nan _ _ E3),
          (notna_no_nan _ _ E4), (notna_no_nan _ _ E5), (notna_no_nan _ _ E6).
  reflexivity.
Qed.

Lemma filter_sublist {A : Type} (p : A -> bool) (l : list A) :
  List.filter p l `sublist_of` l.
Proof.
  induction l as [|x l IH]; cbn [List.filter]; [constructor|].
  destruct (p x); [apply sublist_skip | apply sublist_cons]; exact IH.
Qed.

Lemma drop_duplicates_sublist (l : list Song) : drop_duplicates l `sublist_of` l.
Proof.
  induction l as [|s l IH]; cbn [drop_duplicates]; [constructor|].
  apply sublist_skip. etransitivity; [apply filter_sublist | exact IH].
Qed.

Lemma In_drop_duplicates (l : list Song) (s : Song) :
  In s (drop_duplicates l) -> In s l.
Proof.
  revert s. induction l as [|s0 l IH]; intros s; cbn [drop_duplicates]; [auto|].
  intros [<-|H]; [left; reflexivity|]. right. apply IH.
  apply filter_In in H as [H _]. exact H.
Qed.

Lemma NoDup_map_filter {A B : Type} (k : A -> B) (p : A -> bool) (l : list A) :
  List.NoDup (map k l) -> List.NoDup (map k (List.filter p l)).
Proof.
  induction l as [|x l IH]; cbn [map List.filter]; intros H; [constructor|].
  inversion H as [|? ? Hx Hl]; subst.
  destruct (p x); [|apply IH; exact Hl].
  cbn [map]. constructor; [|apply IH; exact Hl].
  intros Hin. apply Hx. apply in_map_iff in Hin as (y & Hy & Hin).
  apply in_map_iff. exists y. split; [exact Hy|].
  apply filter_In in Hin as [Hin _]. exact Hin.
Qed.

Lemma NoDup_keys_drop_duplicates (l : list Song) :
  List.NoDup (map subset_key (drop_duplicates l)).
Proof.
  induction l as [|s l IH]; cbn [drop_duplicates map]; constructor.
  - intros Hin. apply in_map_iff in Hin as (y & Hy & Hin).
    apply filter_In in Hin as [_ Hn].
    apply (proj2 (same_key_spec y s)) in Hy. rewrite Hy in Hn. discriminate.
  - apply NoDup_map_filter. exact IH.
Qed.

(** A row stays exactly when it is the first of the rows with its name and
    artists. *)
Lemma drop_duplicates_first (l : list Song) (s : Song) :
  In s (drop_duplicates l) <-> find (fun x => same_key x s) l = Some s.
Proof.
  induction l as [|s0 l IH]; cbn [drop_duplicates find In].
  - split; [intros [] | discriminate].
  - rewrite filter_In, IH. destruct (same_key s0 s) eqn:E.
    + split; [|intros H; left; congruence].
      intros [->|[H Hn]]; [reflexivity|].
      exfalso. apply same_key_spec in E.
      assert (same_key s s0 = true) as E' by (apply same_key_spec; congruence).
      rewrite E' in Hn. discriminate.
    + split; [|intros H; right; split; [exact H|]].
      * intros [->|[H _]]; [|exact H].
        assert (same_key s s = true) as E' by (apply same_key_spec; reflexivity).
        congruence.
      * destruct (same_key s s0) eqn:E'; [|reflexivity].
        apply same_key_spec in E'.
        assert (same_key s0 s = true) as E'' by (apply same_key_spec; congruence).
        congruence.
Qed.

Lemma imported_rows (csv : list CsvRow) (s : Song) :
  In s (drop_duplicates (dropna csv)) ->
  no_nan s = true /\ exists r, In r csv /\ complete_row r = Some s.
Proof.
  intros Hs. apply In_drop_duplicates, In_dropna in Hs as (r & Hr & E).
  split; [exact (complete_row_no_nan r s E) | exists r; auto].
Qed.

(** X14: whatever the database held before, after the import table songs
    exists and holds rows of the file that had no missing cell, in file
    order, no two of them with the same track name and artists, and none
    with a NaN feature. *)
Theorem db_convert_table (csv : list CsvRow) (db : Database) :
  exists table,
    db_convert csv db = (Ok tt, {| songs_table := Some table |}) /\
    List.NoDup (map subset_key table) /\
    table `sublist_of` dropna csv /\
    (forall s, In s table ->
       no_nan s = true /\ exists r, In r csv /\ complete_row r = Some s).
Proof.
  exists (drop_duplicates (dropna csv)).
  split; [reflexivity|]. split; [apply NoDup_keys_drop_duplicates|].
  split; [apply drop_duplicates_sublist|]. apply imported_rows.
Qed.

Lemma find_pointwise {A : Type} (p q : A -> bool) (l : list A) :
  (forall x, p x = q x) -> find p l = find q l.
Proof.
  intros H. induction l as [|x l IH]; [reflexivity|].
  cbn [find]. rewrite H, IH. reflexivity.
Qed.

(** X15: of the complete rows of the file that share a track name and
    artists the import stores the first and only the first: a row is stored
    exactly when it is the first complete row with its name and artists, and
    every complete row has a stored row with its name and artists. *)
Theorem db_convert_keeps_first (csv : list CsvRow) (db : Database) :
  exists table,
    songs_table (snd (db_convert csv db)) = Some table /\
    (forall s, In s table <-> find (fun x => same_key x s) (dropna csv) = Some s) /\
    (forall s, In s (dropna csv) ->
       exists s', In s' table /\ subset_key s' = subset_key s).
Proof.
  exists (drop_duplicates (dropna csv)).
  split; [reflexivity|]. split; [intros s; apply drop_duplicates_first|].
  intros s Hs.
  destruct (find (fun x => same_key x s) (dropna csv)) as [s'|] eqn:E.
  - pose proof (find_some _ _ E) as [_ Hk]. apply same_key_spec in Hk.
    exists s'. split; [|exact Hk].
    apply drop_duplicates_first. rewrite <- E. apply find_pointwise.
    intros x. unfold same_key, subset_key in *. injection Hk as -> ->. reflexivity.
  - exfalso. pose proof (find_none _ _ E s Hs) as Hn. cbn beta in Hn.
    assert (same_key s s = true) as E' by (apply same_key_spec; reflexivity).
    congruence.
Qed.

Lemma filter_all {A : Type} (p : A -> bool) (l : list A) :
  (forall x, In x l -> p x = true) -> List.filter p l = l.
Proof.
  induction l as [|x l IH]; intros H; [reflexivity|]. cbn [List.filter].
  rewrite (H x (or_introl eq_refl)), IH; [reflexivity|].
  intros y Hy. apply H. right. exact Hy.
Qed.

Lemma drop_duplicates_NoDup (l : list Song) :
  List.NoDup (map subset_key l) -> drop_duplicates l = l.
Proof.
  induction l as [|s l IH]; intros H; [reflexivity|].
  cbn [map] in H. inversion H as [|? ? Hs Hl]; subst.
  cbn [drop_duplicates]. rewrite (IH Hl). f_equal. apply filter_all.
  intros x Hx. destruct (same_key x s) eqn:E; [|reflexivity].
  exfalso. apply Hs. apply same_key_spec in E. rewrite <- E.
  apply in_map. exact Hx.
Qed.

(** X16: dropping duplicates twice is dropping them once, and rows that
    already differ pairwise in track name or artists are all kept. *)
Theorem drop_duplicates_idempotent (l : list Song) :
  drop_duplicates (drop_duplicates l) = drop_duplicates l /\
  (List.NoDup (map subset_key l) -> drop_duplicates l = l).
Proof.
  split; [|apply drop_duplicates_NoDup].
  apply drop_duplicates_NoDup, NoDup_keys_drop_duplicates.
Qed.


(** X18: after the import the home page is rendered, and every genre it
    offers is the genre of a line of the file with no missing cell. *)
Theorem home_after_import (csv : list CsvRow) (db : Database) :
  exists genres,
    fst (home (snd (db_convert csv db))) = Ok (HomePage genres "Please select a genre.") /\
    List.NoDup genres /\
    (forall g, In g genres ->
       exists r s, In r csv /\ complete_row r = Some s /\ c_track_genre r = Some g).
Proof.
  pose proof (imported_rows csv) as Hin.
  unfold db_convert, to_sql. cbn [snd].
  generalize dependent (drop_duplicates (dropna csv)). intros table Hin.
  exists (first_appearance (map track_genre table)).
  split; [reflexivity|]. split; [apply NoDup_first_appearance|].
  intros g Hg. apply In_first_appearance, in_map_iff in Hg as (s & Hs & Hst).
  destruct (Hin s Hst) as (_ & r & Hr & Hc). exists r, s.
  split; [exact Hr|]. split; [exact Hc|].
  unfold complete_row in Hc.
  destruct (c_track_name r); [|discriminate]. destruct (c_artists r); [|discriminate].
  destruct (c_track_genre r) as [g'|]; [|discriminate].
  destruct (c_popularity r); [|discriminate].
  cbn [mbind option_bind] in Hc.
  destruct (notna (c_danceability r)); [|discriminate].
  destruct (notna (c_energy r)); [|discriminate].
  destruct (notna (c_valence r)); [|discriminate].
  destruct (notna (c_tempo r)); [|discriminate].
  destruct (notna (c_acousticness r)); [|discriminate].
  destruct (notna (c_liveness r)); [|discriminate].
  cbn [mbind option_bind] in Hc.
  destruct (forallb cell_present (c_others r)); [|discriminate].
  injection Hc as <-. cbn [track_genre] in Hs. congruence.
Qed.

(** The sample file: the repeated track is stored once, under the genre of
    its first line, so genre "dance" is not offered; the line with NaN
    features is not stored. *)
Example db_convert_sample :
  snd (db_convert sample_csv empty_db) = {| songs_table := Some [bright; calm] |} /\
  fst (home (snd (db_convert sample_csv empty_db))) =
    Ok (HomePage ["pop"; "ambient"] "Please select a genre.").
Proof. split; reflexivity. Qed.
